(** * Logistics AI Assistant: the chat orchestrator, the fallback knowledge
    base and the shipping facade of [app.py], embedded in Rocq.

    The four functions of [app.py] that carry logic are translated here:
    [get_fallback_response], [get_enhanced_chatbot_response],
    [get_shipping_rates] and [track_shipment].  Python values are an
    inductive type, raised exceptions an explicit outcome, and the two
    effects the functions have (one HTTP call through [requests], one line
    logged or printed) are threaded through a small trace monad, so that
    "no call was made" and "this payload was sent" are statements about the
    trace.  Around them, the greeting, the timestamp, the decorated reply
    of [get_chatbot_response] and the page's handlers that call these
    functions (Send, Clear, the two information tools) are translated too,
    with the clock reading and the session's history as explicit inputs. *)

From Stdlib Require Import String Ascii List ZArith Bool Lia.
From Stdlib Require Import Floats.PrimFloat.
Import ListNotations.

Local Open Scope string_scope.
Local Open Scope Z_scope.

(** ** Strings

    A Python [str] is kept as a Rocq [string].  The literals of the four
    functions (topic phrases, canned texts, templates) are all ASCII. *)

Module Str.

(** The line feed written ["\n"] in the source. *)
Definition nl : string := String (ascii_of_nat 10) EmptyString.

(** [sub in s] on Python strings: [sub] occurs in [s] as a contiguous run.
    The empty string occurs in every string. *)
Fixpoint contains (sub s : string) : bool :=
  prefix sub s ||
  match s with
  | EmptyString => false
  | String _ rest => contains sub rest
  end.

(** The characters of a string, as the one-character strings that
    iterating over a Python string yields. *)
Fixpoint chars (s : string) : list string :=
  match s with
  | EmptyString => []
  | String c rest => String c EmptyString :: chars rest
  end.

(** [s[:n]] on a string. *)
Fixpoint take (n : nat) (s : string) : string :=
  match n, s with
  | S n', String c rest => String c (take n' rest)
  | _, _ => EmptyString
  end.

(** [s.split("\n")]: the pieces between line feeds. *)
Fixpoint lines_from (cur : string) (s : string) : list string :=
  match s with
  | EmptyString => [cur]
  | String c rest =>
      if Ascii.eqb c (ascii_of_nat 10)
      then cur :: lines_from EmptyString rest
      else lines_from (cur ++ String c EmptyString) rest
  end.

Definition lines (s : string) : list string := lines_from EmptyString s.

(** A string with no line feed in it. *)
Fixpoint one_line (s : string) : bool :=
  match s with
  | EmptyString => true
  | String c rest => negb (Ascii.eqb c (ascii_of_nat 10)) && one_line rest
  end.

(** Lower-casing restricted to the letters A-Z.  Python's [str.lower]
    agrees with it on every ASCII string; it is the instance at which the
    functions below are run on concrete inputs. *)
Definition lower_ascii (c : ascii) : ascii :=
  let n := nat_of_ascii c in
  if (Nat.leb 65 n && Nat.leb n 90)%bool then ascii_of_nat (n + 32) else c.

Fixpoint ascii_lower (s : string) : string :=
  match s with
  | EmptyString => EmptyString
  | String c rest => String (lower_ascii c) (ascii_lower rest)
  end.

End Str.

(** ** Python values and the builtins the source applies to them *)

Module Py.

(** What [json.loads] produces and what [json.dumps] consumes.  A [dict]
    is kept as its items in insertion order, one item per key; the keys of
    a decoded JSON object are strings. *)
#[local] Unset Elimination Schemes.
Inductive value : Type :=
| PNone
| PBool (b : bool)
| PInt (z : Z)
| PFloat (f : float)
| PStr (s : string)
| PList (l : list value)
| PDict (items : list (string * value)).
#[local] Set Elimination Schemes.

(** Exceptions of [requests.exceptions], all subclasses of
    [RequestException].  [JSONDecodeError] is the one [Response.json]
    raises (requests 2.27 and later, where it derives from
    [InvalidJSONError]). *)
Inductive request_exception : Type :=
| ConnectionError
| Timeout
| TooManyRedirects
| HTTPError
| JSONDecodeError
| OtherRequestException.

Inductive exn : Type :=
| RequestException (k : request_exception)
| KeyError (key : value)
| IndexError
| TypeError.

Inductive outcome (A : Type) : Type :=
| Returns (a : A)
| Raises (e : exn).
Arguments Returns {A} a.
Arguments Raises {A} e.

Fixpoint lookup (k : string) (items : list (string * value)) : option value :=
  match items with
  | [] => None
  | (k', v) :: rest => if String.eqb k k' then Some v else lookup k rest
  end.

(** [bool(v)]. *)
Definition truthy (v : value) : bool :=
  match v with
  | PNone => false
  | PBool b => b
  | PInt z => negb (z =? 0)
  | PFloat f => negb (PrimFloat.eqb f 0%float)
  | PStr s => negb (String.eqb s "")
  | PList l => match l with [] => false | _ => true end
  | PDict items => match items with [] => false | _ => true end
  end.

(** [bool(key)] for a value of [os.getenv]: [None] and the empty string
    are both false. *)
Definition truthy_key (key : option string) : bool :=
  match key with
  | None => false
  | Some s => negb (String.eqb s "")
  end.

(** [str(key)] for a value of [os.getenv], as an f-string renders it. *)
Definition key_text (key : option string) : string :=
  match key with
  | None => "None"
  | Some s => s
  end.

(** [v[k]] with a string subscript. *)
Definition getitem (v : value) (k : string) : outcome value :=
  match v with
  | PDict items =>
      match lookup k items with
      | Some x => Returns x
      | None => Raises (KeyError (PStr k))
      end
  | _ => Raises TypeError
  end.

Definition index_of (i : Z) (len : nat) : option nat :=
  let j := if i <? 0 then i + Z.of_nat len else i in
  if (0 <=? j) && (j <? Z.of_nat len) then Some (Z.to_nat j) else None.

(** [v[i]] with an integer subscript. *)
Definition getindex (v : value) (i : Z) : outcome value :=
  match v with
  | PList l =>
      match index_of i (List.length l) with
      | Some n => match nth_error l n with
                  | Some x => Returns x
                  | None => Raises IndexError
                  end
      | None => Raises IndexError
      end
  | PStr s =>
      match index_of i (String.length s) with
      | Some n => match nth_error (Str.chars s) n with
                  | Some c => Returns (PStr c)
                  | None => Raises IndexError
                  end
      | None => Raises IndexError
      end
  | PDict _ => Raises (KeyError (PInt i))
  | _ => Raises TypeError
  end.

Definition is_str (k : string) (v : value) : bool :=
  match v with
  | PStr s => String.eqb s k
  | _ => false
  end.

(** [k in v] with a string on the left: key membership in a dict, element
    membership in a list, substring test in a string; the other values
    are not iterable. *)
Definition contains (k : string) (v : value) : outcome bool :=
  match v with
  | PDict items => Returns (match lookup k items with Some _ => true | None => false end)
  | PList l => Returns (existsb (is_str k) l)
  | PStr s => Returns (Str.contains k s)
  | _ => Raises TypeError
  end.

(** [v[:n]].  A dict subscripted by a slice raises ([TypeError] for the
    unhashable slice before Python 3.12, [KeyError] since; neither is a
    [RequestException]). *)
Definition slice_to (n : nat) (v : value) : outcome value :=
  match v with
  | PList l => Returns (PList (firstn n l))
  | PStr s => Returns (PStr (Str.take n s))
  | _ => Raises TypeError
  end.

(** The elements a [for] loop over [v] visits. *)
Definition iter (v : value) : outcome (list value) :=
  match v with
  | PList l => Returns l
  | PStr s => Returns (map PStr (Str.chars s))
  | PDict items => Returns (map (fun kv => PStr (fst kv)) items)
  | _ => Raises TypeError
  end.

End Py.
Export Py.

(** ** The HTTP client *)

Module Requests.

Inductive method : Type := GET | POST.

(** What the source hands to [requests.get] / [requests.post]. *)
Record request : Type := mkRequest {
  req_method : method;
  req_url : string;
  req_headers : list (string * string);
  req_json : option value
}.

(** What comes back: the call raises, or yields a response with a status
    code and a body that decodes as JSON ([Some]) or does not ([None]). *)
Record response : Type := mkResponse {
  status_code : Z;
  json_body : option value
}.

Inductive reply : Type :=
| Fails (k : request_exception)
| Responds (r : response).

End Requests.
Export Requests.

(** ** Effects: a trace of what the program did *)

(** [Sent r]: [requests.get] or [requests.post] was called with [r] (the
    attempt; what becomes of it is the backend's reply).  [Logged] and
    [Printed]: the line [logging.error] or [print] wrote, as its fixed
    prefix and the exception whose text follows it. *)
Inductive event : Type :=
| Sent (r : request)
| Logged (prefix : string) (e : request_exception)
| Printed (prefix : string) (e : request_exception).

Definition trace : Type := list event.

Definition IO (A : Type) : Type := trace -> outcome A * trace.

Definition ret {A} (a : A) : IO A := fun t => (Returns a, t).

Definition raise {A} (e : exn) : IO A := fun t => (Raises e, t).

Definition bind {A B} (m : IO A) (k : A -> IO B) : IO B :=
  fun t =>
    match m t with
    | (Returns a, t') => k a t'
    | (Raises e, t') => (Raises e, t')
    end.

Definition lift {A} (o : outcome A) : IO A := fun t => (o, t).

Definition emit (ev : event) : IO unit := fun t => (Returns tt, (t ++ [ev])%list).

(** [try: body / except requests.exceptions.RequestException as e: handler]:
    only a [RequestException] is caught; any other exception leaves the
    function. *)
Definition try_except {A} (body : IO A) (handler : request_exception -> IO A) : IO A :=
  fun t =>
    match body t with
    | (Raises (RequestException k), t') => handler k t'
    | other => other
    end.

Declare Scope io_scope.
Delimit Scope io_scope with io.
Notation "x <- m ;; k" := (bind m (fun x => k))
  (at level 61, m at next level, right associativity) : io_scope.
Notation "m ;; k" := (bind m (fun _ => k))
  (at level 61, right associativity) : io_scope.
Local Open Scope io_scope.

(** [for x in xs: acc.append(f(x))], stopping at the first exception. *)
Fixpoint for_each {A B} (f : A -> IO B) (xs : list A) : IO (list B) :=
  match xs with
  | [] => ret []
  | x :: rest =>
      y <- f x ;;
      ys <- for_each f rest ;;
      ret (y :: ys)
  end.

(** The requests a trace holds, oldest first. *)
Fixpoint sent (t : trace) : list request :=
  match t with
  | [] => []
  | Sent r :: rest => r :: sent rest
  | _ :: rest => sent rest
  end.

(** ** The application *)

Definition GROQ_API_URL : string := "https://api.groq.com/openai/v1/chat/completions".
Definition SHIPPO_API_URL : string := "https://api.goshippo.com/shipments/".

(** One entry of the chat history: the dict [{"role": ..., "content": ...}]
    that the page appends for every turn. *)
Record chat : Type := mkChat {
  role : string;
  content : string
}.

(** The dict literal of [get_fallback_response], as its items in the order
    they are written, which is the order [.items()] visits them. *)
Definition logistics_topics : list (string * string) :=
  [ ("shipping rates", "Shipping rates vary depending on factors such as package weight, dimensions, destination, and service level. For accurate rates, please use our Shipping Rates Calculator tool in the Tools section.");
    ("track shipment", "To track a shipment, you'll need the tracking number and carrier information. Please use our Shipment Tracker tool in the Tools section for real-time tracking updates.");
    ("trucking", "Trucking is a crucial part of logistics, involving the transportation of goods by road. It includes various types of services such as full truckload (FTL), less than truckload (LTL), and specialized freight.");
    ("freight forwarding", "Freight forwarding involves organizing shipments from the manufacturer or producer to the final point of distribution or consumer.");
    ("customs", "Customs procedures are essential for international shipping. They involve declaring goods, paying duties and taxes, and complying with import/export regulations.");
    ("packaging", "Proper packaging is crucial for protecting your items during shipping. Use appropriate materials like bubble wrap, packing peanuts, or air pillows.");
    ("insurance", "Shipping insurance provides protection against loss, damage, or theft of your packages.");
    ("international shipping", "International shipping involves additional considerations such as customs documentation, duties and taxes, restricted items, and longer transit times.");
    ("warehousing", "Warehousing is the storage of goods before they are shipped to customers.");
    ("last-mile delivery", "Last-mile delivery refers to the final step of the delivery process from a distribution center to the end customer.") ].

Definition generic_prompt : string :=
  "I'm here to help with all your logistics needs, including shipping, trucking, and freight forwarding. Could you please provide more specific information about what you'd like to know? Feel free to ask about topics such as shipping rates, tracking, customs, packaging, insurance, or any other logistics-related questions.".

Definition system_prompt : string :=
  "You are an expert AI assistant specializing in logistics, shipping, trucking, and freight forwarding. Provide accurate, helpful, and concise information to user queries. Always maintain a friendly and professional tone.".

Definition rates_header : string := "Available shipping rates:".
Definition no_rates_message : string :=
  "No rates found for the given shipment details. Please check your input and try again.".
Definition rates_error_message : string :=
  "An error occurred while fetching shipping rates. Please try again later or contact support.".
Definition tracking_unavailable_message : string :=
  "Shipment tracking is currently unavailable. Please try again later or contact support.".
Definition tracking_error_message : string :=
  "An error occurred while tracking the shipment. Please try again later or contact support.".

(** The [for topic, response in ...items()] loop with its early [return]. *)
Fixpoint first_topic (items : list (string * string)) (text : string) : option string :=
  match items with
  | [] => None
  | (topic, response) :: rest =>
      if Str.contains topic text then Some response else first_topic rest text
  end.

(** [{"role": chat["role"], "content": chat["content"]}]. *)
Definition message (r c : string) : value :=
  PDict [("role", PStr r); ("content", PStr c)].

(** [chat_history[-n:]]: the last [n] entries, or all of them when there
    are fewer. *)
Definition last_entries {A} (n : nat) (l : list A) : list A :=
  skipn (List.length l - n) l.

(** ** Vocabulary of the specification *)

(** A backend call that failed: the transport raised (connection, timeout,
    ...), the status is an HTTP error (4xx or 5xx), or the body does not
    decode as JSON. *)
Inductive failed : reply -> Prop :=
| failed_transport (k : request_exception) : failed (Fails k)
| failed_status (r : response) :
    400 <= status_code r < 600 -> failed (Responds r)
| failed_parse (r : response) :
    json_body r = None -> failed (Responds r).

(** The same with "non-2xx" read as it is written: any status outside
    200..299. *)
Inductive failed_non_2xx : reply -> Prop :=
| non_2xx_transport (k : request_exception) : failed_non_2xx (Fails k)
| non_2xx_status (r : response) :
    ~ (200 <= status_code r < 300) -> failed_non_2xx (Responds r)
| non_2xx_parse (r : response) :
    json_body r = None -> failed_non_2xx (Responds r).

(** A successful response: status 2xx and a body that decodes to [data]. *)
Definition succeeded (rp : reply) (data : value) : Prop :=
  exists r, rp = Responds r /\ 200 <= status_code r < 300 /\ json_body r = Some data.

(** The ["messages"] list of a request's JSON payload. *)
Definition request_messages (r : request) : option (list value) :=
  match req_json r with
  | Some (PDict items) =>
      match lookup "messages" items with
      | Some (PList l) => Some l
      | _ => None
      end
  | _ => None
  end.

(** A rate entry of the shipping backend: an object with the three fields
    [provider], [amount] and [duration_terms]. *)
Definition rate_entry (rate provider amount duration_terms : value) : Prop :=
  exists items,
    rate = PDict items
    /\ lookup "provider" items = Some provider
    /\ lookup "amount" items = Some amount
    /\ lookup "duration_terms" items = Some duration_terms.

Definition is_rate_entry (rate : value) : Prop :=
  exists provider amount duration_terms, rate_entry rate provider amount duration_terms.

(** The first field that [track_shipment] expects of a tracking object and
    that is absent from it, following the objects that are present:
    [tracking_status], then its [status] and [location], then the
    location's [city] and [country]. *)
Definition missing_field (tracking_info : value) : option string :=
  match tracking_info with
  | PDict items =>
      match lookup "tracking_status" items with
      | None => Some "tracking_status"
      | Some (PDict ts) =>
          match lookup "status" ts with
          | None => Some "status"
          | Some _ =>
              match lookup "location" ts with
              | None => Some "location"
              | Some (PDict loc) =>
                  match lookup "city" loc with
                  | None => Some "city"
                  | Some _ =>
                      match lookup "country" loc with
                      | None => Some "country"
                      | Some _ => None
                      end
                  end
              | Some _ => None
              end
          end
      | Some _ => None
      end
  | _ => None
  end.

(** A computation that leaves the trace as it found it: no request, no
    log line. *)
Definition quiet {A} (m : IO A) : Prop := forall t, snd (m t) = t.

(** ** The clock and the page

    [datetime.now()] is an input of the functions that read the clock: the
    value it returned at the call. *)

Record datetime : Type := mkDatetime {
  year : Z;
  month : Z;
  day : Z;
  hour : Z;
  minute : Z;
  second : Z;
  microsecond : Z
}.

(** The ranges a [datetime] keeps its fields in, with the year on four
    digits. *)
Definition valid_datetime (d : datetime) : Prop :=
  1000 <= year d <= 9999 /\ 1 <= month d <= 12 /\ 1 <= day d <= 31
  /\ 0 <= hour d < 24 /\ 0 <= minute d < 60 /\ 0 <= second d < 60.

Definition digit (d : Z) : ascii := ascii_of_nat (Z.to_nat (48 + d)).

(** [%m], [%d], [%H], [%M], [%S]: two digits, zero-padded. *)
Definition pad2 (n : Z) : string :=
  String (digit (n / 10)) (String (digit (n mod 10)) EmptyString).

(** [%Y] for a four-digit year. *)
Definition pad4 (n : Z) : string :=
  String (digit (n / 1000))
    (String (digit (n / 100 mod 10))
       (String (digit (n / 10 mod 10))
          (String (digit (n mod 10)) EmptyString))).

(** [now.strftime("%Y-%m-%d %H:%M:%S")]. *)
Definition format_timestamp (now : datetime) : string :=
  pad4 (year now) ++ "-" ++ pad2 (month now) ++ "-" ++ pad2 (day now) ++ " "
  ++ pad2 (hour now) ++ ":" ++ pad2 (minute now) ++ ":" ++ pad2 (second now).

Definition morning_greeting : string :=
  "Good morning! How can I assist you with your logistics needs today?".
Definition afternoon_greeting : string :=
  "Good afternoon! What logistics questions can I help you with?".
Definition evening_greeting : string :=
  "Good evening! How may I assist you with your shipping and logistics inquiries?".

Definition get_greeting (now : datetime) : string :=
  let current_hour := hour now in
  if current_hour <? 12 then morning_greeting
  else if current_hour <? 18 then afternoon_greeting
  else evening_greeting.

(** The robot face that opens every reply, U+1F916, as its UTF-8 bytes. *)
Definition robot : string :=
  String (ascii_of_nat 240) (String (ascii_of_nat 159)
    (String (ascii_of_nat 164) (String (ascii_of_nat 150) EmptyString))).

(** A history in which user and assistant messages alternate, the user
    first and the assistant last. *)
Fixpoint alternating (h : list chat) : bool :=
  match h with
  | [] => true
  | u :: a :: rest =>
      String.eqb (role u) "user" && String.eqb (role a) "assistant" && alternating rest
  | _ => false
  end.

(** The first of the three fields of a rate entry that an object lacks. *)
Definition missing_rate_field (items : list (string * value)) : option string :=
  match lookup "provider" items with
  | None => Some "provider"
  | Some _ =>
      match lookup "amount" items with
      | None => Some "amount"
      | Some _ =>
          match lookup "duration_terms" items with
          | None => Some "duration_terms"
          | Some _ => None
          end
      end
  end.

(** What the user does on the Home page: presses Send with the text box
    holding [user_input], while the clock reads [now] and the network
    answers as [network] does, or presses Clear. *)
Inductive action : Type :=
| Send (now : datetime) (user_input : string) (network : request -> reply)
| Clear.

(** ** Sample inputs

    Concrete credentials, backends and bodies at which the functions are
    run below. *)

(** Rendering of non-string values for the sample runs, whose fields are
    all strings: [None] and the booleans as Python prints them. *)
Definition str_sample (v : value) : string :=
  match v with
  | PNone => "None"
  | PBool true => "True"
  | PBool false => "False"
  | _ => ""
  end.

Definition sample_earlier : list chat :=
  [ mkChat "user" "Hello";
    mkChat "assistant" "Good morning! How can I assist you?" ].

Definition sample_recent : list chat :=
  [ mkChat "user" "What is LTL?";
    mkChat "assistant" "Less than truckload.";
    mkChat "user" "And FTL?";
    mkChat "assistant" "Full truckload.";
    mkChat "user" "Which is cheaper?" ].

Definition completion_body : value :=
  PDict [("choices",
          PList [PDict [("index", PInt 0);
                        ("message", PDict [("role", PStr "assistant");
                                           ("content", PStr "LTL is usually cheaper.")])]])].

Definition backend_down (_ : request) : reply := Fails ConnectionError.
Definition backend_500 (_ : request) : reply := Responds (mkResponse 500 None).
Definition backend_300 (_ : request) : reply :=
  Responds (mkResponse 300 (Some completion_body)).

Definition sample_rate (provider amount duration_terms : string) : value :=
  PDict [("object_id", PStr "rate");
         ("provider", PStr provider);
         ("amount", PStr amount);
         ("duration_terms", PStr duration_terms)].

Definition seven_rates : list value :=
  [ sample_rate "USPS" "5.50" "1-3 days";
    sample_rate "USPS" "7.25" "2 days";
    sample_rate "UPS" "9.10" "3 days";
    sample_rate "UPS" "14.00" "next day";
    sample_rate "FedEx" "11.75" "2 days";
    sample_rate "FedEx" "21.30" "overnight";
    sample_rate "DHL" "30.00" "4 days" ].

Definition backend_seven_rates (_ : request) : reply :=
  Responds (mkResponse 201 (Some (PDict [("status", PStr "SUCCESS");
                                         ("rates", PList seven_rates)]))).

Definition backend_no_rates_key (_ : request) : reply :=
  Responds (mkResponse 201 (Some (PDict [("status", PStr "QUEUED")]))).

Definition sample_address (name city : string) : value :=
  PDict [("name", PStr name); ("street1", PStr "1 Main St"); ("city", PStr city);
         ("state", PStr "CA"); ("zip", PStr "94105"); ("country", PStr "US")].

Definition backend_tracking_without_eta (_ : request) : reply :=
  Responds (mkResponse 200 (Some (PDict
    [("carrier", PStr "usps");
     ("tracking_status",
      PDict [("status", PStr "TRANSIT");
             ("location", PDict [("city", PStr "Memphis"); ("country", PStr "US")])])]))).

Definition backend_tracking_empty (_ : request) : reply :=
  Responds (mkResponse 200 (Some (PDict []))).

Definition sample_noon : datetime := mkDatetime 2024 3 9 12 0 5 120000.

Definition backend_no_choices (_ : request) : reply :=
  Responds (mkResponse 200 (Some (PDict [("error", PStr "overloaded")]))).

Definition backend_completion (_ : request) : reply :=
  Responds (mkResponse 200 (Some completion_body)).

Definition backend_rates_null (_ : request) : reply :=
  Responds (mkResponse 201 (Some (PDict [("status", PStr "ERROR"); ("rates", PNone)]))).

Definition incomplete_rate : list (string * value) :=
  [("provider", PStr "UPS"); ("amount", PStr "9.10")].

Definition backend_incomplete_rate (_ : request) : reply :=
  Responds (mkResponse 201 (Some (PDict
    [("rates", PList [sample_rate "USPS" "5.50" "1-3 days";
                      PDict incomplete_rate;
                      sample_rate "FedEx" "11.75" "2 days"])]))).

Definition backend_five_rates (_ : request) : reply :=
  Responds (mkResponse 201 (Some (PDict [("rates", PList (firstn 5 seven_rates))]))).

Definition backend_tracking_with_eta (_ : request) : reply :=
  Responds (mkResponse 200 (Some (PDict
    [("eta", PStr "2024-03-12T18:00:00Z");
     ("tracking_status",
      PDict [("status", PStr "TRANSIT");
             ("location", PDict [("city", PStr "Memphis"); ("country", PStr "US")])])]))).

Definition backend_tracking_unknown (_ : request) : reply :=
  Responds (mkResponse 200 (Some (PDict [("eta", PNone); ("tracking_status", PNone)]))).

Definition sample_evening : datetime := mkDatetime 2024 3 9 18 30 0 999.

Section App.

(** [str.lower].  Python lower-cases by the Unicode tables; the functions
    are stated over any such function and run with [Str.ascii_lower]. *)
Variable lower : string -> string.

(** [str(v)] for a value that is not already a string (numbers, [None],
    containers), whose text Python's [repr] machinery decides. *)
Variable str_other : value -> string.

(** The two credentials read from the environment by [os.getenv]. *)
Variable GROQ_API_KEY : option string.
Variable SHIPPO_API_KEY : option string.

(** The network and the two backends behind it: what a request gets.
    Each function below calls it at most once in a run. *)
Variable backend : request -> reply.

(** [str(v)], and [{v}] in an f-string. *)
Definition py_str (v : value) : string :=
  match v with
  | PStr s => s
  | _ => str_other v
  end.

Definition get_fallback_response (user_input : string) : string :=
  match first_topic logistics_topics (lower user_input) with
  | Some response => response
  | None => generic_prompt
  end.

(** [requests.post(url, headers=..., json=...)] and [requests.get(url,
    headers=...)]: the request goes out, then the call raises or returns. *)
Definition requests_call (r : request) : IO response :=
  fun t =>
    match backend r with
    | Fails k => (Raises (RequestException k), (t ++ [Sent r])%list)
    | Responds resp => (Returns resp, (t ++ [Sent r])%list)
    end.

(** [response.raise_for_status()]: [HTTPError] for a 4xx or 5xx status. *)
Definition raise_for_status (r : response) : IO unit :=
  if (400 <=? status_code r) && (status_code r <? 600)
  then raise (RequestException HTTPError)
  else ret tt.

(** [response.json()]. *)
Definition response_json (r : response) : IO value :=
  match json_body r with
  | Some v => ret v
  | None => raise (RequestException JSONDecodeError)
  end.

Definition chat_messages (user_input : string) (chat_history : list chat) : list value :=
  ([message "system" system_prompt]
   ++ map (fun c => message (role c) (content c)) (last_entries 5 chat_history)
   ++ [message "user" user_input])%list.

Definition chat_payload (user_input : string) (chat_history : list chat) : value :=
  PDict [("model", PStr "mixtral-8x7b-32768");
         ("messages", PList (chat_messages user_input chat_history));
         ("max_tokens", PInt 500);
         ("temperature", PFloat 0x1.6666666666666p-1%float)].

Definition chat_request (user_input : string) (chat_history : list chat) : request :=
  mkRequest POST GROQ_API_URL
    [("Authorization", "Bearer " ++ key_text GROQ_API_KEY);
     ("Content-Type", "application/json")]
    (Some (chat_payload user_input chat_history)).

Definition get_enhanced_chatbot_response
    (user_input : string) (chat_history : list chat) : IO value :=
  if negb (truthy_key GROQ_API_KEY) then
    ret (PStr (get_fallback_response user_input))
  else
    try_except
      (response <- requests_call (chat_request user_input chat_history) ;;
       raise_for_status response ;;
       data <- response_json response ;;
       choices <- lift (getitem data "choices") ;;
       choice <- lift (getindex choices 0) ;;
       msg <- lift (getitem choice "message") ;;
       lift (getitem msg "content"))
      (fun e =>
         emit (Logged "API Error: " e) ;;
         ret (PStr (get_fallback_response user_input))).

Definition rates_request (origin destination weight length width height : value) : request :=
  mkRequest POST "https://api.goshippo.com/shipments/"
    [("Authorization", "ShippoToken " ++ key_text SHIPPO_API_KEY)]
    (Some (PDict [("address_from", origin);
                  ("address_to", destination);
                  ("parcels", PList [PDict [("length", PStr (py_str length));
                                            ("width", PStr (py_str width));
                                            ("height", PStr (py_str height));
                                            ("distance_unit", PStr "in");
                                            ("weight", PStr (py_str weight));
                                            ("mass_unit", PStr "lb")]]);
                  ("async", PBool false)])).

(** [f"{rate['provider']} - ${rate['amount']} ({rate['duration_terms']})"]. *)
Definition rate_line (rate : value) : IO string :=
  provider <- lift (getitem rate "provider") ;;
  amount <- lift (getitem rate "amount") ;;
  duration_terms <- lift (getitem rate "duration_terms") ;;
  ret (py_str provider ++ " - $" ++ py_str amount ++ " (" ++ py_str duration_terms ++ ")").

Definition get_shipping_rates
    (origin destination weight length width height : value) : IO string :=
  try_except
    (response <- requests_call (rates_request origin destination weight length width height) ;;
     raise_for_status response ;;
     data <- response_json response ;;
     has_rates <- lift (contains "rates" data) ;;
     nonempty <- (if has_rates : bool
                  then rates <- lift (getitem data "rates") ;; ret (truthy rates)
                  else ret false) ;;
     if nonempty : bool then
       rates <- lift (getitem data "rates") ;;
       top <- lift (slice_to 5 rates) ;;
       entries <- lift (iter top) ;;
       rates_info <- for_each rate_line entries ;;
       ret (rates_header ++ Str.nl ++ String.concat Str.nl rates_info)
     else
       ret no_rates_message)
    (fun e =>
       emit (Printed "Shippo API Error: " e) ;;
       ret rates_error_message).

Definition track_request (tracking_number carrier : string) : request :=
  mkRequest GET ("https://api.goshippo.com/tracks/" ++ carrier ++ "/" ++ tracking_number ++ "/")
    [("Authorization", "ShippoToken " ++ key_text SHIPPO_API_KEY)]
    None.

Definition track_shipment (tracking_number carrier : string) : IO string :=
  if negb (truthy_key SHIPPO_API_KEY) then
    ret tracking_unavailable_message
  else
    try_except
      (response <- requests_call (track_request tracking_number carrier) ;;
       raise_for_status response ;;
       tracking_info <- response_json response ;;
       ts1 <- lift (getitem tracking_info "tracking_status") ;;
       status <- lift (getitem ts1 "status") ;;
       ts2 <- lift (getitem tracking_info "tracking_status") ;;
       loc2 <- lift (getitem ts2 "location") ;;
       location <- lift (getitem loc2 "city") ;;
       ts3 <- lift (getitem tracking_info "tracking_status") ;;
       loc3 <- lift (getitem ts3 "location") ;;
       country <- lift (getitem loc3 "country") ;;
       has_eta <- lift (contains "eta" tracking_info) ;;
       eta <- (if has_eta : bool
               then lift (getitem tracking_info "eta")
               else ret (PStr "Not available")) ;;
       ret ("Tracking Status: " ++ py_str status ++ Str.nl
            ++ "Current Location: " ++ py_str location ++ ", " ++ py_str country ++ Str.nl
            ++ "Estimated Delivery: " ++ py_str eta))
      (fun e =>
         emit (Printed "Shippo API Error: " e) ;;
         ret tracking_error_message).

(** What the specification calls a topic phrase "contained
    case-insensitively" in the input: once both are lower-cased, the phrase
    is a contiguous run of the input. *)
Definition contains_ci (phrase input : string) : Prop :=
  exists pre post, lower input = pre ++ lower phrase ++ post.

(** The text a line shows for a field: a string as it is, any other
    value as [str] prints it. *)
Definition shown (field : value) (text : string) : Prop :=
  match field with
  | PStr s => text = s
  | _ => text = str_other field
  end.

(** [line] is the rate entry [rate] rendered as
    ["<provider> - $<amount> (<duration_terms>)"]. *)
Definition formatted (rate : value) (line : string) : Prop :=
  exists provider amount duration_terms provider_text amount_text duration_text,
    rate_entry rate provider amount duration_terms
    /\ shown provider provider_text
    /\ shown amount amount_text
    /\ shown duration_terms duration_text
    /\ line = provider_text ++ " - $" ++ amount_text ++ " (" ++ duration_text ++ ")".

(** C2 as the claim words it, at one input: with a credential, a call
    that fails by transport, by a status outside 2xx or by an undecodable
    body yields the fallback text. *)
Definition chat_failure_claim
    (user_input : string) (chat_history : list chat) (t : trace) : Prop :=
  truthy_key GROQ_API_KEY = true ->
  failed_non_2xx (backend (chat_request user_input chat_history)) ->
  fst (get_enhanced_chatbot_response user_input chat_history t)
  = Returns (PStr (get_fallback_response user_input)).

(** C6 as the claim words it, at one input: with a credential, a failed
    call and a successful response lacking an expected field both yield the
    fixed error message. *)
Definition track_failure_claim (tracking_number carrier : string) (t : trace) : Prop :=
  truthy_key SHIPPO_API_KEY = true ->
  (failed (backend (track_request tracking_number carrier))
   \/ exists tracking_info field,
        succeeded (backend (track_request tracking_number carrier)) tracking_info
        /\ missing_field tracking_info = Some field) ->
  fst (track_shipment tracking_number carrier t) = Returns tracking_error_message.

(** [get_chatbot_response], with the clock reading and the history of the
    session it reads made arguments.  The timestamp is taken before the
    backend is called. *)
Definition get_chatbot_response
    (now : datetime) (user_input : string) (session_history : list chat) : IO string :=
  let response_timestamp := format_timestamp now in
  response <- get_enhanced_chatbot_response user_input session_history ;;
  ret (robot ++ " " ++ py_str response ++ " (sent at " ++ response_timestamp ++ ")").

(** The Send button: with a non-empty text box, the user's message is
    appended to the session's history, the reply is computed from the
    history so extended, and the reply is appended.  An exception leaves
    the script there; the session keeps the history as it stands. *)
Definition send_click (now : datetime) (user_input : string) (chat_history : list chat)
    (t : trace) : outcome unit * list chat * trace :=
  if negb (String.eqb user_input "") then
    let with_user := (chat_history ++ [mkChat "user" user_input])%list in
    match get_chatbot_response now user_input with_user t with
    | (Returns bot_response, t') =>
        (Returns tt, (with_user ++ [mkChat "assistant" bot_response])%list, t')
    | (Raises e, t') => (Raises e, with_user, t')
    end
  else (Returns tt, chat_history, t).

(** The Clear Chat History button. *)
Definition clear_click (chat_history : list chat) (t : trace)
    : outcome unit * list chat * trace :=
  (Returns tt, [], t).

Definition trucking_prompt (trucking_query : string) : string :=
  "Provide information about " ++ trucking_query
  ++ " in the context of trucking and transportation.".

Definition freight_prompt (freight_query : string) : string :=
  "Provide information about " ++ freight_query
  ++ " in the context of freight forwarding.".

(** The Get Trucking Info and Get Freight Forwarding Info buttons of the
    Tools page: the query is wrapped in a prompt and sent with an empty
    history. *)
Definition trucking_info (trucking_query : string) : IO value :=
  get_enhanced_chatbot_response (trucking_prompt trucking_query) [].

Definition freight_info (freight_query : string) : IO value :=
  get_enhanced_chatbot_response (freight_prompt freight_query) [].

(** ** Strings: containment *)

Lemma append_assoc (a b c : string) : (a ++ b) ++ c = a ++ (b ++ c).
Proof.
  induction a as [|x a IH]; simpl; [reflexivity | now rewrite IH].
Qed.

Lemma append_nil_r (a : string) : a ++ "" = a.
Proof.
  induction a as [|x a IH]; simpl; [reflexivity | now rewrite IH].
Qed.

Lemma prefix_app (p s : string) :
  prefix p s = true <-> exists post, s = p ++ post.
Proof.
  revert s; induction p as [|a p IH]; intros s; simpl.
  - destruct s; simpl; split; intros; eauto.
  - destruct s as [|b s]; simpl.
    + split; [discriminate | intros [post H]; discriminate].
    + destruct (ascii_dec a b) as [->|Hne].
      * rewrite IH. split; intros [post H]; exists post.
        -- now rewrite H.
        -- now injection H.
      * split; [discriminate | intros [post H]; congruence].
Qed.

Lemma contains_occurs (sub s : string) :
  Str.contains sub s = true <-> exists pre post, s = pre ++ sub ++ post.
Proof.
  induction s as [|c s IH]; cbn [Str.contains].
  - rewrite orb_false_r, prefix_app. split.
    + intros [post H]. exists "", post. exact H.
    + intros [pre [post H]]. destruct pre; simpl in H.
      * now exists post.
      * discriminate.
  - rewrite orb_true_iff, prefix_app, IH. split.
    + intros [[post H] | [pre [post H]]].
      * exists "", post. exact H.
      * exists (String c pre), post. simpl. now rewrite H.
    + intros [pre [post H]]. destruct pre as [|x pre]; simpl in H.
      * left. now exists post.
      * right. injection H as _ H. now exists pre, post.
Qed.

Lemma contains_absent (sub s : string) :
  Str.contains sub s = false <-> ~ exists pre post, s = pre ++ sub ++ post.
Proof.
  rewrite <- contains_occurs. destruct (Str.contains sub s); split; intros H.
  - discriminate.
  - exfalso. now apply H.
  - discriminate.
  - reflexivity.
Qed.

(** ** The topic loop *)

Lemma first_topic_hit (text : string) (before : list (string * string))
    (topic response : string) (after : list (string * string)) :
  Str.contains topic text = true ->
  (forall t r, In (t, r) before -> Str.contains t text = false) ->
  first_topic (before ++ (topic, response) :: after)%list text = Some response.
Proof.
  intros Hhit. induction before as [|[t r] before IH]; intros Hmiss; simpl.
  - now rewrite Hhit.
  - rewrite (Hmiss t r (or_introl eq_refl)). apply IH.
    intros t' r' Hin. apply (Hmiss t' r'). now right.
Qed.

Lemma first_topic_miss (text : string) (items : list (string * string)) :
  (forall t r, In (t, r) items -> Str.contains t text = false) ->
  first_topic items text = None.
Proof.
  induction items as [|[t r] items IH]; intros Hmiss; simpl.
  - reflexivity.
  - rewrite (Hmiss t r (or_introl eq_refl)). apply IH.
    intros t' r' Hin. apply (Hmiss t' r'). now right.
Qed.

(** The table's phrases are stored in lower case, so testing the stored
    phrase against the lower-cased input is the case-insensitive test. *)
Lemma contains_ci_test (phrase input : string) :
  lower phrase = phrase ->
  (Str.contains phrase (lower input) = true <-> contains_ci phrase input).
Proof.
  intros Hfix. unfold contains_ci. rewrite Hfix. apply contains_occurs.
Qed.

(** C1. [get_fallback_response] returns the canned response of the first
    topic phrase, in the order of the table, that the input contains
    case-insensitively (whatever surrounds it and however it is cased), and
    the generic prompt, verbatim, when the input contains no topic phrase.
    The function is a total function of the input alone: it reads no
    credential, touches no trace and cannot raise.  The hypothesis says
    that lower-casing leaves the ten stored phrases as they are, which
    holds of [str.lower] since they are written in lower case. *)
Theorem fallback_first_matching_topic :
  Forall (fun entry => lower (fst entry) = fst entry) logistics_topics ->
  forall user_input : string,
    (forall before topic response after,
        logistics_topics = (before ++ (topic, response) :: after)%list ->
        contains_ci topic user_input ->
        (forall t r, In (t, r) before -> ~ contains_ci t user_input) ->
        get_fallback_response user_input = response)
    /\ ((forall t r, In (t, r) logistics_topics -> ~ contains_ci t user_input) ->
        get_fallback_response user_input = generic_prompt).
Proof.
  intros Hfix user_input.
  assert (Hlow : forall t r, In (t, r) logistics_topics -> lower t = t).
  { intros t r Hin. rewrite Forall_forall in Hfix. exact (Hfix (t, r) Hin). }
  unfold get_fallback_response. split.
  - intros before topic response after Htable Hhit Hmiss.
    rewrite Htable. rewrite first_topic_hit; [reflexivity | |].
    + apply contains_ci_test; [|exact Hhit].
      apply (Hlow topic response). rewrite Htable. apply in_elt.
    + intros t r Hin.
      assert (Ht : lower t = t).
      { apply (Hlow t r). rewrite Htable. apply in_or_app. now left. }
      destruct (Str.contains t (lower user_input)) eqn:E; [|reflexivity].
      exfalso. apply (Hmiss t r Hin). now apply contains_ci_test.
  - intros Hmiss. rewrite first_topic_miss; [reflexivity|].
    intros t r Hin.
    destruct (Str.contains t (lower user_input)) eqn:E; [|reflexivity].
    exfalso. apply (Hmiss t r Hin). apply contains_ci_test; [|exact E].
    now apply (Hlow t r).
Qed.

(** ** The trace *)

Lemma sent_app (a b : trace) : sent (a ++ b)%list = (sent a ++ sent b)%list.
Proof.
  induction a as [|[r|p e|p e] a IH]; simpl; [reflexivity | now rewrite IH | exact IH | exact IH].
Qed.

Lemma quiet_ret {A} (a : A) : quiet (ret a).
Proof. intros t. reflexivity. Qed.

Lemma quiet_raise {A} (e : exn) : quiet (@raise A e).
Proof. intros t. reflexivity. Qed.

Lemma quiet_lift {A} (o : outcome A) : quiet (lift o).
Proof. intros t. reflexivity. Qed.

Lemma quiet_bind {A B} (m : IO A) (k : A -> IO B) :
  quiet m -> (forall a, quiet (k a)) -> quiet (bind m k).
Proof.
  intros Hm Hk t. unfold bind. specialize (Hm t).
  destruct (m t) as [[a|e] t']; simpl in Hm; subst t'; [apply Hk | reflexivity].
Qed.

Lemma quiet_for_each {A B} (f : A -> IO B) (xs : list A) :
  (forall x, quiet (f x)) -> quiet (for_each f xs).
Proof.
  intros Hf. induction xs as [|x xs IH]; simpl.
  - apply quiet_ret.
  - apply quiet_bind; [apply Hf | intros y].
    apply quiet_bind; [exact IH | intros ys; apply quiet_ret].
Qed.

Lemma quiet_raise_for_status (r : response) : quiet (raise_for_status r).
Proof.
  unfold raise_for_status.
  destruct ((400 <=? status_code r) && (status_code r <? 600)); [apply quiet_raise | apply quiet_ret].
Qed.

Lemma quiet_response_json (r : response) : quiet (response_json r).
Proof.
  unfold response_json. destruct (json_body r); [apply quiet_ret | apply quiet_raise].
Qed.

Lemma quiet_rate_line (rate : value) : quiet (rate_line rate).
Proof.
  unfold rate_line. repeat (apply quiet_bind; [apply quiet_lift | intros ?]). apply quiet_ret.
Qed.

(** A 2xx status passes [raise_for_status]. *)
Lemma raise_for_status_ok (r : response) (t : trace) :
  ~ (400 <= status_code r < 600) -> raise_for_status r t = (Returns tt, t).
Proof.
  intros H. unfold raise_for_status.
  destruct ((400 <=? status_code r) && (status_code r <? 600)) eqn:E; [|reflexivity].
  apply andb_true_iff in E. destruct E as [E1 E2].
  apply Z.leb_le in E1. apply Z.ltb_lt in E2. lia.
Qed.

Lemma raise_for_status_error (r : response) (t : trace) :
  400 <= status_code r < 600 ->
  raise_for_status r t = (Raises (RequestException HTTPError), t).
Proof.
  intros [H1 H2]. unfold raise_for_status.
  apply Z.leb_le in H1. apply Z.ltb_lt in H2. now rewrite H1, H2.
Qed.

(** ** The chat orchestrator *)

(** C4. With no chat credential configured ([GROQ_API_KEY] unset or empty),
    [get_enhanced_chatbot_response] returns the text
    [get_fallback_response] gives for the same input, for every input and
    history, and the trace is left untouched: no request is sent and
    nothing is logged, so the gate is a short-circuit and not an error
    path. *)
Theorem chat_without_credential_defers_to_fallback :
  truthy_key GROQ_API_KEY = false ->
  forall (user_input : string) (chat_history : list chat) (t : trace),
    get_enhanced_chatbot_response user_input chat_history t
    = (Returns (PStr (get_fallback_response user_input)), t).
Proof.
  intros Hkey user_input chat_history t.
  unfold get_enhanced_chatbot_response. now rewrite Hkey.
Qed.

(** C2, as amended.  With a chat credential configured, when the call to
    the chat backend fails because the transport raises (connection,
    timeout, ...), because the status is 4xx or 5xx, or because the body
    does not decode as JSON, [get_enhanced_chatbot_response] does not
    raise: it returns the text [get_fallback_response] gives for the
    current input (the history plays no part in it), after one request and
    one logged line. *)
Theorem chat_failure_defers_to_fallback :
  truthy_key GROQ_API_KEY = true ->
  forall (user_input : string) (chat_history : list chat) (t : trace),
    failed (backend (chat_request user_input chat_history)) ->
    exists k,
      get_enhanced_chatbot_response user_input chat_history t
      = (Returns (PStr (get_fallback_response user_input)),
         (t ++ [Sent (chat_request user_input chat_history); Logged "API Error: " k])%list).
Proof.
  intros Hkey user_input chat_history t Hfail.
  unfold get_enhanced_chatbot_response. rewrite Hkey. cbn [negb].
  unfold try_except. unfold bind at 1. unfold requests_call.
  destruct (backend (chat_request user_input chat_history)) as [k|r].
  - exists k. cbn. now rewrite <- app_assoc.
  - destruct (Z_le_dec 400 (status_code r)) as [Hlo|Hlo];
      [destruct (Z_lt_dec (status_code r) 600) as [Hhi|Hhi]|].
    + exists HTTPError. unfold bind at 1.
      rewrite raise_for_status_error by lia. cbn. now rewrite <- app_assoc.
    + exists JSONDecodeError. inversion Hfail as [|r' Hstatus|r' Hbody]; [lia|].
      unfold bind at 1. rewrite raise_for_status_ok by lia. unfold bind at 1.
      unfold response_json. rewrite Hbody. cbn. now rewrite <- app_assoc.
    + exists JSONDecodeError. inversion Hfail as [|r' Hstatus|r' Hbody]; [lia|].
      unfold bind at 1. rewrite raise_for_status_ok by lia. unfold bind at 1.
      unfold response_json. rewrite Hbody. cbn. now rewrite <- app_assoc.
Qed.

Lemma last_entries_app {A} (n : nat) (earlier recent : list A) :
  List.length recent = n -> last_entries n (earlier ++ recent)%list = recent.
Proof.
  intros Hlen. unfold last_entries. rewrite length_app, Hlen.
  replace (List.length earlier + n - n)%nat with (List.length earlier) by lia.
  rewrite skipn_app, skipn_all, Nat.sub_diag. reflexivity.
Qed.

(** What follows the request in the [try] block of the chat orchestrator
    touches neither the network nor the log. *)
Lemma quiet_chat_extraction (r : response) :
  quiet (raise_for_status r ;;
         data <- response_json r ;;
         choices <- lift (getitem data "choices") ;;
         choice <- lift (getindex choices 0) ;;
         msg <- lift (getitem choice "message") ;;
         lift (getitem msg "content")).
Proof.
  apply quiet_bind; [apply quiet_raise_for_status | intros _].
  apply quiet_bind; [apply quiet_response_json | intros data].
  repeat (apply quiet_bind; [apply quiet_lift | intros ?]). apply quiet_lift.
Qed.

(** With a credential, every run of the orchestrator sends exactly one
    request, the one [chat_request] builds, whatever the backend answers. *)
Lemma chat_sends_one_request (user_input : string) (chat_history : list chat) (t : trace) :
  truthy_key GROQ_API_KEY = true ->
  sent (snd (get_enhanced_chatbot_response user_input chat_history t))
  = (sent t ++ [chat_request user_input chat_history])%list.
Proof.
  intros Hkey. unfold get_enhanced_chatbot_response. rewrite Hkey. cbn [negb].
  unfold try_except. unfold bind at 1. unfold requests_call.
  destruct (backend (chat_request user_input chat_history)) as [k|r].
  - cbn. rewrite !sent_app. cbn. now rewrite app_nil_r.
  - pose proof (quiet_chat_extraction r
                  (t ++ [Sent (chat_request user_input chat_history)])%list) as Hq.
    destruct ((raise_for_status r ;; _)%io _) as [[a|[k| | |]] t']; cbn in Hq; subst t'; cbn;
      rewrite ?sent_app; cbn; rewrite ?app_nil_r; reflexivity.
Qed.

(** C3. With a chat credential configured, for every input and every
    history of at least five messages (written [earlier ++ recent] with
    [recent] its last five; a 7-message history among them), the payload
    of the one request [get_enhanced_chatbot_response] sends carries
    exactly seven messages, in this order: the fixed system-role
    instruction, the five messages of [recent], each as the object of its
    role and its content, unchanged, and a user-role message whose content
    is the new input.  Nothing of [earlier] is in it. *)
Theorem chat_payload_is_system_last_five_user :
  truthy_key GROQ_API_KEY = true ->
  forall (user_input : string) (earlier recent : list chat) (t : trace),
    List.length recent = 5%nat ->
    exists req msgs,
      sent (snd (get_enhanced_chatbot_response user_input (earlier ++ recent)%list t))
      = (sent t ++ [req])%list
      /\ request_messages req = Some msgs
      /\ msgs = ([PDict [("role", PStr "system");
                           ("content", PStr "You are an expert AI assistant specializing in logistics, shipping, trucking, and freight forwarding. Provide accurate, helpful, and concise information to user queries. Always maintain a friendly and professional tone.")]]
                 ++ map (fun c => PDict [("role", PStr (role c)); ("content", PStr (content c))])
                      recent
                 ++ [PDict [("role", PStr "user"); ("content", PStr user_input)]])%list
      /\ List.length msgs = 7%nat.
Proof.
  intros Hkey user_input earlier recent t Hlen.
  exists (chat_request user_input (earlier ++ recent)%list).
  exists (chat_messages user_input (earlier ++ recent)%list).
  split; [now apply chat_sends_one_request|].
  split; [reflexivity|].
  unfold chat_messages. rewrite (last_entries_app 5 earlier recent Hlen).
  split; [reflexivity|].
  rewrite !length_app, length_map, Hlen. reflexivity.
Qed.

(** ** The shipping facade *)

(** C7. With no shipping credential configured ([SHIPPO_API_KEY] unset or
    empty), [track_shipment] returns the fixed "unavailable" message for
    every tracking number and carrier, and the trace is left untouched:
    zero requests are sent. *)
Theorem track_without_credential_is_unavailable :
  truthy_key SHIPPO_API_KEY = false ->
  forall (tracking_number carrier : string) (t : trace),
    track_shipment tracking_number carrier t = (Returns tracking_unavailable_message, t)
    /\ sent (snd (track_shipment tracking_number carrier t)) = sent t.
Proof.
  intros Hkey tracking_number carrier t.
  unfold track_shipment. rewrite Hkey. cbn [negb]. split; reflexivity.
Qed.

Ltac quiet_steps :=
  repeat first
    [ apply quiet_ret
    | apply quiet_raise
    | apply quiet_lift
    | apply quiet_raise_for_status
    | apply quiet_response_json
    | apply quiet_rate_line
    | apply quiet_for_each; intros ?
    | apply quiet_bind; [|intros ?]
    | match goal with |- quiet (if ?b then _ else _) => destruct b end ].

(** Whatever the credential and whatever the backend answers,
    [get_shipping_rates] sends exactly one request. *)
Lemma rates_sends_one_request
    (origin destination weight length width height : value) (t : trace) :
  sent (snd (get_shipping_rates origin destination weight length width height t))
  = (sent t ++ [rates_request origin destination weight length width height])%list.
Proof.
  unfold get_shipping_rates, try_except. unfold bind at 1. unfold requests_call.
  destruct (backend _) as [k|r].
  - cbn. rewrite !sent_app. cbn. now rewrite app_nil_r.
  - match goal with
    | |- context [bind (raise_for_status r) ?k ?t0] =>
        assert (Hq : quiet (bind (raise_for_status r) k)) by quiet_steps;
        specialize (Hq t0);
        destruct (bind (raise_for_status r) k t0) as [[a|[e| | |]] t']
    end; cbn in Hq; subst t'; cbn; rewrite ?sent_app; cbn; rewrite ?app_nil_r; reflexivity.
Qed.

(** C8. [get_shipping_rates] has no missing-credential gate: for every
    input and every value of [SHIPPO_API_KEY], the unset one included, it
    sends its request to the backend (with [None] rendered into the
    Authorization header when there is no credential); and whenever the
    call fails (transport error, 4xx or 5xx status, undecodable body) it
    returns the one fixed error message, whose text depends neither on the
    credential nor on the kind of failure. *)
Theorem rates_call_has_no_credential_gate :
  forall (origin destination weight length width height : value) (t : trace),
    sent (snd (get_shipping_rates origin destination weight length width height t))
    = (sent t ++ [rates_request origin destination weight length width height])%list
    /\ (SHIPPO_API_KEY = None ->
        req_headers (rates_request origin destination weight length width height)
        = [("Authorization", "ShippoToken None")])
    /\ (failed (backend (rates_request origin destination weight length width height)) ->
        fst (get_shipping_rates origin destination weight length width height t)
        = Returns rates_error_message).
Proof.
  intros origin destination weight length width height t.
  split; [apply rates_sends_one_request|]. split.
  - intros Hkey. unfold rates_request. rewrite Hkey. reflexivity.
  - intros Hfail.
    unfold get_shipping_rates, try_except. unfold bind at 1. unfold requests_call.
    destruct (backend _) as [k|r]; [reflexivity|].
    destruct (Z_le_dec 400 (status_code r)) as [Hlo|Hlo];
      [destruct (Z_lt_dec (status_code r) 600) as [Hhi|Hhi]|].
    + unfold bind at 1. rewrite raise_for_status_error by lia. reflexivity.
    + inversion Hfail as [|r' Hstatus|r' Hbody]; [lia|].
      unfold bind at 1. rewrite raise_for_status_ok by lia. unfold bind at 1.
      unfold response_json. rewrite Hbody. reflexivity.
    + inversion Hfail as [|r' Hstatus|r' Hbody]; [lia|].
      unfold bind at 1. rewrite raise_for_status_ok by lia. unfold bind at 1.
      unfold response_json. rewrite Hbody. reflexivity.
Qed.

(** The run of [get_shipping_rates] on a successful response, up to the
    decoded body. *)
Lemma rates_on_success
    (origin destination weight length width height : value) (t : trace) (data : value) :
  succeeded (backend (rates_request origin destination weight length width height)) data ->
  get_shipping_rates origin destination weight length width height t
  = try_except
      (has_rates <- lift (contains "rates" data) ;;
       nonempty <- (if has_rates : bool
                    then rates <- lift (getitem data "rates") ;; ret (truthy rates)
                    else ret false) ;;
       if nonempty : bool then
         rates <- lift (getitem data "rates") ;;
         top <- lift (slice_to 5 rates) ;;
         entries <- lift (iter top) ;;
         rates_info <- for_each rate_line entries ;;
         ret (rates_header ++ Str.nl ++ String.concat Str.nl rates_info)
       else
         ret no_rates_message)
      (fun e => emit (Printed "Shippo API Error: " e) ;; ret rates_error_message)
      (t ++ [Sent (rates_request origin destination weight length width height)])%list.
Proof.
  intros [r [Hreply [Hstatus Hbody]]].
  unfold get_shipping_rates, try_except. unfold bind at 1. unfold requests_call.
  rewrite Hreply. unfold bind at 1. rewrite raise_for_status_ok by lia.
  unfold bind at 1. unfold response_json. rewrite Hbody. reflexivity.
Qed.

(** C10. A successful (2xx) response whose JSON object has no ["rates"]
    key at all does not make [get_shipping_rates] raise: the missing key
    is folded into the zero-rates case and the function returns the fixed
    "no rates found" message, the one an empty array gets. *)
Theorem rates_missing_key_is_no_rates :
  forall (origin destination weight length width height : value) (t : trace)
         (items : list (string * value)),
    succeeded (backend (rates_request origin destination weight length width height))
              (PDict items) ->
    lookup "rates" items = None ->
    fst (get_shipping_rates origin destination weight length width height t)
    = Returns no_rates_message.
Proof.
  intros origin destination weight length width height t items Hok Hmiss.
  rewrite (rates_on_success _ _ _ _ _ _ t _ Hok).
  unfold try_except, bind, lift, contains. rewrite Hmiss. reflexivity.
Qed.

Lemma rate_line_of_entry (rate provider amount duration_terms : value) (t : trace) :
  rate_entry rate provider amount duration_terms ->
  rate_line rate t
  = (Returns (py_str provider ++ " - $" ++ py_str amount
              ++ " (" ++ py_str duration_terms ++ ")"), t).
Proof.
  intros [items [-> [Hp [Ha Hd]]]].
  unfold rate_line, bind, lift, getitem. now rewrite Hp, Ha, Hd.
Qed.

Lemma shown_py_str (field : value) : shown field (py_str field).
Proof. destruct field; reflexivity. Qed.

Lemma for_each_rate_line (rates : list value) :
  Forall is_rate_entry rates ->
  exists lines,
    (forall t, for_each rate_line rates t = (Returns lines, t))
    /\ Forall2 formatted rates lines.
Proof.
  induction 1 as [|rate rates [p [a [d Hrate]]] _ [lines [Hrun Hfmt]]].
  - exists []. split; [reflexivity | constructor].
  - exists ((py_str p ++ " - $" ++ py_str a ++ " (" ++ py_str d ++ ")") :: lines). split.
    + intros t. cbn [for_each]. unfold bind at 1.
      rewrite (rate_line_of_entry _ _ _ _ t Hrate). unfold bind. now rewrite Hrun.
    + constructor; [|exact Hfmt].
      exists p, a, d, (py_str p), (py_str a), (py_str d).
      repeat split; first [exact Hrate | apply shown_py_str].
Qed.

Lemma shown_unique (field : value) (text1 text2 : string) :
  shown field text1 -> shown field text2 -> text1 = text2.
Proof. destruct field; cbn; congruence. Qed.

Lemma formatted_unique (rate : value) (line1 line2 : string) :
  formatted rate line1 -> formatted rate line2 -> line1 = line2.
Proof.
  intros [p1 [a1 [d1 [tp1 [ta1 [td1 [[items1 [E1 [Hp1 [Ha1 Hd1]]]] [Sp1 [Sa1 [Sd1 ->]]]]]]]]]].
  intros [p2 [a2 [d2 [tp2 [ta2 [td2 [[items2 [E2 [Hp2 [Ha2 Hd2]]]] [Sp2 [Sa2 [Sd2 ->]]]]]]]]]].
  subst rate. injection E2 as <-.
  assert (p1 = p2) by congruence. assert (a1 = a2) by congruence.
  assert (d1 = d2) by congruence. subst.
  now rewrite (shown_unique _ _ _ Sp1 Sp2), (shown_unique _ _ _ Sa1 Sa2),
    (shown_unique _ _ _ Sd1 Sd2).
Qed.

Lemma formatted_lines_unique (rates : list value) (lines1 lines2 : list string) :
  Forall2 formatted rates lines1 -> Forall2 formatted rates lines2 -> lines1 = lines2.
Proof.
  intros H1. revert lines2. induction H1 as [|rate line rates lines Hline _ IH];
    intros lines2 H2; inversion H2 as [|rate' line' rates' lines' Hline' Hrest]; subst.
  - reflexivity.
  - now rewrite (formatted_unique _ _ _ Hline Hline'), (IH _ Hrest).
Qed.

Lemma Forall_firstn {A} (P : A -> Prop) (n : nat) (l : list A) :
  Forall P l -> Forall P (firstn n l).
Proof.
  intros H. revert n. induction H as [|x l Hx _ IH]; intros [|n]; simpl; constructor; auto.
Qed.

(** C5. On a successful response whose ["rates"] array holds [N] rate
    entries: when [N >= 1], [get_shipping_rates] returns the header line
    followed by exactly [min N 5] lines, all joined by line feeds, the
    [i]-th being the [i]-th entry of the array, in backend order, rendered
    as ["<provider> - $<amount> (<duration_terms>)"] with a string field
    shown as it is; when [N = 0] it returns the fixed "no rates found"
    message. *)
Theorem rates_formats_first_five_entries :
  forall (origin destination weight length width height : value) (t : trace)
         (items : list (string * value)) (rates : list value),
    succeeded (backend (rates_request origin destination weight length width height))
              (PDict items) ->
    lookup "rates" items = Some (PList rates) ->
    Forall is_rate_entry rates ->
    ((1 <= List.length rates)%nat ->
     exists lines,
       fst (get_shipping_rates origin destination weight length width height t)
       = Returns (String.concat (String (ascii_of_nat 10) "")
                    ("Available shipping rates:" :: lines))
       /\ List.length lines = Nat.min (List.length rates) 5
       /\ Forall2 formatted (firstn 5 rates) lines)
    /\ (List.length rates = 0%nat ->
        fst (get_shipping_rates origin destination weight length width height t)
        = Returns "No rates found for the given shipment details. Please check your input and try again.").
Proof.
  intros origin destination weight length width height t items rates Hok Hrates Hentries.
  rewrite (rates_on_success _ _ _ _ _ _ t _ Hok). split.
  - intros Hlen.
    destruct (for_each_rate_line (firstn 5 rates) (Forall_firstn _ 5 _ Hentries))
      as [lines [Hrun Hfmt]].
    exists lines. split; [|split].
    + destruct rates as [|first rest]; [simpl in Hlen; lia|].
      unfold try_except, bind, lift, contains, getitem. rewrite Hrates.
      cbn [truthy slice_to iter ret]. rewrite Hrun.
      destruct lines as [|line lines]; [inversion Hfmt|]. reflexivity.
    + rewrite <- (Forall2_length Hfmt), length_firstn. apply Nat.min_comm.
    + exact Hfmt.
  - intros Hlen. destruct rates as [|first rest]; [|discriminate].
    unfold try_except, bind, lift, contains, getitem. rewrite Hrates. reflexivity.
Qed.

(** ** Strings: lines *)

Lemma lines_from_last (s cur : string) :
  Str.one_line s = true -> Str.lines_from cur s = [cur ++ s].
Proof.
  revert cur. induction s as [|c s IH]; intros cur H; cbn [Str.lines_from].
  - now rewrite append_nil_r.
  - cbn [Str.one_line] in H. apply andb_true_iff in H. destruct H as [Hc Hs].
    apply negb_true_iff in Hc. rewrite Hc, (IH _ Hs), append_assoc. reflexivity.
Qed.

Lemma lines_from_first (s cur rest : string) :
  Str.one_line s = true ->
  Str.lines_from cur (s ++ Str.nl ++ rest) = (cur ++ s) :: Str.lines_from "" rest.
Proof.
  revert cur. induction s as [|c s IH]; intros cur H.
  - cbn. now rewrite append_nil_r.
  - cbn [Str.one_line] in H. apply andb_true_iff in H. destruct H as [Hc Hs].
    apply negb_true_iff in Hc. cbn [append Str.lines_from].
    rewrite Hc, (IH _ Hs), append_assoc. reflexivity.
Qed.

Lemma one_line_app (a b : string) :
  Str.one_line (a ++ b) = Str.one_line a && Str.one_line b.
Proof.
  induction a as [|c a IH]; cbn [append Str.one_line]; [reflexivity|].
  now rewrite IH, andb_assoc.
Qed.

Lemma lines_of_three (a b c : string) :
  Str.one_line a = true -> Str.one_line b = true -> Str.one_line c = true ->
  Str.lines (a ++ Str.nl ++ b ++ Str.nl ++ c) = [a; b; c].
Proof.
  intros Ha Hb Hc. unfold Str.lines.
  rewrite (lines_from_first a "" _ Ha), (lines_from_first b "" _ Hb), (lines_from_last c "" Hc).
  reflexivity.
Qed.

(** ** Tracking *)

(** The run of [track_shipment] on a successful response, up to the
    decoded body. *)
Lemma track_on_success (tracking_number carrier : string) (t : trace) (tracking_info : value) :
  truthy_key SHIPPO_API_KEY = true ->
  succeeded (backend (track_request tracking_number carrier)) tracking_info ->
  track_shipment tracking_number carrier t
  = try_except
      (ts1 <- lift (getitem tracking_info "tracking_status") ;;
       status <- lift (getitem ts1 "status") ;;
       ts2 <- lift (getitem tracking_info "tracking_status") ;;
       loc2 <- lift (getitem ts2 "location") ;;
       location <- lift (getitem loc2 "city") ;;
       ts3 <- lift (getitem tracking_info "tracking_status") ;;
       loc3 <- lift (getitem ts3 "location") ;;
       country <- lift (getitem loc3 "country") ;;
       has_eta <- lift (contains "eta" tracking_info) ;;
       eta <- (if has_eta : bool
               then lift (getitem tracking_info "eta")
               else ret (PStr "Not available")) ;;
       ret ("Tracking Status: " ++ py_str status ++ Str.nl
            ++ "Current Location: " ++ py_str location ++ ", " ++ py_str country ++ Str.nl
            ++ "Estimated Delivery: " ++ py_str eta))
      (fun e => emit (Printed "Shippo API Error: " e) ;; ret tracking_error_message)
      (t ++ [Sent (track_request tracking_number carrier)])%list.
Proof.
  intros Hkey [r [Hreply [Hstatus Hbody]]].
  unfold track_shipment. rewrite Hkey. cbn [negb].
  unfold try_except. unfold bind at 1. unfold requests_call.
  rewrite Hreply. unfold bind at 1. rewrite raise_for_status_ok by lia.
  unfold bind at 1. unfold response_json. rewrite Hbody. reflexivity.
Qed.

(** C9. With a shipping credential configured, on a successful response
    that carries the status and the location's city and country but has no
    top-level [eta], [track_shipment] returns the three-line block
    ["Tracking Status: <status>"], ["Current Location: <city>, <country>"],
    ["Estimated Delivery: Not available"], joined by line feeds; split at
    its line feeds (the fields holding none), the text has exactly three
    lines and the third reads "Estimated Delivery: Not available". *)
Theorem track_without_eta_reads_not_available :
  truthy_key SHIPPO_API_KEY = true ->
  forall (tracking_number carrier : string) (t : trace)
         (items ts loc : list (string * value)) (status city country : value),
    succeeded (backend (track_request tracking_number carrier)) (PDict items) ->
    lookup "tracking_status" items = Some (PDict ts) ->
    lookup "status" ts = Some status ->
    lookup "location" ts = Some (PDict loc) ->
    lookup "city" loc = Some city ->
    lookup "country" loc = Some country ->
    lookup "eta" items = None ->
    fst (track_shipment tracking_number carrier t)
    = Returns (("Tracking Status: " ++ py_str status) ++ Str.nl
               ++ ("Current Location: " ++ py_str city ++ ", " ++ py_str country) ++ Str.nl
               ++ "Estimated Delivery: Not available")
    /\ (Str.one_line (py_str status) = true ->
        Str.one_line (py_str city) = true ->
        Str.one_line (py_str country) = true ->
        Str.lines (("Tracking Status: " ++ py_str status) ++ Str.nl
                   ++ ("Current Location: " ++ py_str city ++ ", " ++ py_str country) ++ Str.nl
                   ++ "Estimated Delivery: Not available")
        = [ "Tracking Status: " ++ py_str status;
            "Current Location: " ++ py_str city ++ ", " ++ py_str country;
            "Estimated Delivery: Not available" ]).
Proof.
  intros Hkey tracking_number carrier t items ts loc status city country
         Hok Hts Hstatus Hloc Hcity Hcountry Heta.
  split.
  - rewrite (track_on_success _ _ t _ Hkey Hok).
    unfold try_except, bind, lift, contains, getitem.
    rewrite Hts, Hstatus, Hloc, Hcity, Hcountry, Heta.
    cbn [ret fst py_str]. rewrite !append_assoc. reflexivity.
  - intros H1 H2 H3. apply lines_of_three; [| |reflexivity].
    + now rewrite one_line_app, H1.
    + now rewrite !one_line_app, H2, H3.
Qed.

(** C6, as amended.  With a shipping credential configured, on any
    transport or HTTP failure (the call raises, the status is 4xx or 5xx,
    or the body does not decode) [track_shipment] returns the fixed generic
    error message.  A successful (2xx) response from which an expected
    field is missing is not converted into that message: the [KeyError] of
    the failed lookup, naming the missing field, leaves the function. *)
Theorem track_failure_is_message_missing_field_raises :
  truthy_key SHIPPO_API_KEY = true ->
  forall (tracking_number carrier : string) (t : trace),
    (failed (backend (track_request tracking_number carrier)) ->
     fst (track_shipment tracking_number carrier t) = Returns tracking_error_message)
    /\ (forall (tracking_info : value) (field : string),
          succeeded (backend (track_request tracking_number carrier)) tracking_info ->
          missing_field tracking_info = Some field ->
          fst (track_shipment tracking_number carrier t) = Raises (KeyError (PStr field))).
Proof.
  intros Hkey tracking_number carrier t. split.
  - intros Hfail. unfold track_shipment. rewrite Hkey. cbn [negb].
    unfold try_except. unfold bind at 1. unfold requests_call.
    destruct (backend _) as [k|r]; [reflexivity|].
    destruct (Z_le_dec 400 (status_code r)) as [Hlo|Hlo];
      [destruct (Z_lt_dec (status_code r) 600) as [Hhi|Hhi]|].
    + unfold bind at 1. rewrite raise_for_status_error by lia. reflexivity.
    + inversion Hfail as [|r' Hstatus|r' Hbody]; [lia|].
      unfold bind at 1. rewrite raise_for_status_ok by lia. unfold bind at 1.
      unfold response_json. rewrite Hbody. reflexivity.
    + inversion Hfail as [|r' Hstatus|r' Hbody]; [lia|].
      unfold bind at 1. rewrite raise_for_status_ok by lia. unfold bind at 1.
      unfold response_json. rewrite Hbody. reflexivity.
  - intros tracking_info field Hok Hmiss.
    rewrite (track_on_success _ _ t _ Hkey Hok).
    unfold missing_field in Hmiss.
    destruct tracking_info as [| | | | | |items]; try discriminate.
    unfold try_except, bind, lift, contains, getitem.
    destruct (lookup "tracking_status" items) as [[| | | | | |ts]|]; try discriminate;
      [|now injection Hmiss as <-].
    destruct (lookup "status" ts) as [status|]; [|now injection Hmiss as <-].
    destruct (lookup "location" ts) as [[| | | | | |loc]|]; try discriminate;
      [|now injection Hmiss as <-].
    destruct (lookup "city" loc) as [city|]; [|now injection Hmiss as <-].
    destruct (lookup "country" loc) as [country|]; [discriminate|now injection Hmiss as <-].
Qed.

(** ** More on the chat orchestrator *)

(** Without a credential, or when the call fails, the value returned is
    the fallback text. *)
Lemma chat_fallback_value (user_input : string) (chat_history : list chat) (t : trace) :
  truthy_key GROQ_API_KEY = false
  \/ failed (backend (chat_request user_input chat_history)) ->
  fst (get_enhanced_chatbot_response user_input chat_history t)
  = Returns (PStr (get_fallback_response user_input)).
Proof.
  intros H. unfold get_enhanced_chatbot_response.
  destruct (truthy_key GROQ_API_KEY) eqn:Hkey; cbn [negb]; [|reflexivity].
  destruct H as [H|Hfail]; [discriminate|].
  unfold try_except. unfold bind at 1. unfold requests_call.
  destruct (backend (chat_request user_input chat_history)) as [k|r]; [reflexivity|].
  unfold bind at 1.
  destruct (Z_le_dec 400 (status_code r)) as [Hlo|Hlo];
    [destruct (Z_lt_dec (status_code r) 600) as [Hhi|Hhi]|].
  - rewrite raise_for_status_error by lia. reflexivity.
  - inversion Hfail as [|r' Hstatus|r' Hbody]; [lia|].
    rewrite raise_for_status_ok by lia. unfold bind at 1.
    unfold response_json. rewrite Hbody. reflexivity.
  - inversion Hfail as [|r' Hstatus|r' Hbody]; [lia|].
    rewrite raise_for_status_ok by lia. unfold bind at 1.
    unfold response_json. rewrite Hbody. reflexivity.
Qed.

(** The run of the orchestrator on a successful response, up to the
    decoded body. *)
Lemma chat_on_success (user_input : string) (chat_history : list chat) (t : trace)
    (data : value) :
  truthy_key GROQ_API_KEY = true ->
  succeeded (backend (chat_request user_input chat_history)) data ->
  get_enhanced_chatbot_response user_input chat_history t
  = try_except
      (choices <- lift (getitem data "choices") ;;
       choice <- lift (getindex choices 0) ;;
       msg <- lift (getitem choice "message") ;;
       lift (getitem msg "content"))
      (fun e =>
         emit (Logged "API Error: " e) ;;
         ret (PStr (get_fallback_response user_input)))
      (t ++ [Sent (chat_request user_input chat_history)])%list.
Proof.
  intros Hkey [r [Hreply [Hstatus Hbody]]].
  unfold get_enhanced_chatbot_response. rewrite Hkey. cbn [negb].
  unfold try_except. unfold bind at 1. unfold requests_call.
  rewrite Hreply. unfold bind at 1. rewrite raise_for_status_ok by lia.
  unfold bind at 1. unfold response_json. rewrite Hbody. reflexivity.
Qed.

(** X1. On a successful response whose body carries
    [choices[0].message.content], the orchestrator returns that content as
    it is (whatever value it is), after its one request and with nothing
    logged. *)
Theorem chat_success_returns_content_unmodified :
  truthy_key GROQ_API_KEY = true ->
  forall (user_input : string) (chat_history : list chat) (t : trace)
         (items choice_items msg_items : list (string * value))
         (more_choices : list value) (c : value),
    succeeded (backend (chat_request user_input chat_history)) (PDict items) ->
    lookup "choices" items = Some (PList (PDict choice_items :: more_choices)) ->
    lookup "message" choice_items = Some (PDict msg_items) ->
    lookup "content" msg_items = Some c ->
    get_enhanced_chatbot_response user_input chat_history t
    = (Returns c, (t ++ [Sent (chat_request user_input chat_history)])%list).
Proof.
  intros Hkey user_input chat_history t items choice_items msg_items more_choices c
         Hok Hchoices Hmsg Hcontent.
  rewrite (chat_on_success _ _ t _ Hkey Hok).
  unfold try_except, bind, lift, getitem. rewrite Hchoices.
  cbn [getindex index_of List.length]. cbn. now rewrite Hmsg, Hcontent.
Qed.

(** X2. A successful response whose body lacks what the orchestrator
    expects is not turned into the fallback: the lookup's exception leaves
    the function, after the request and with nothing logged.  A body
    without ["choices"] raises [KeyError], an empty ["choices"] list
    [IndexError], and a ["choices"] that is [null] [TypeError]. *)
Theorem chat_malformed_body_raises :
  truthy_key GROQ_API_KEY = true ->
  forall (user_input : string) (chat_history : list chat) (t : trace)
         (items : list (string * value)),
    succeeded (backend (chat_request user_input chat_history)) (PDict items) ->
    (lookup "choices" items = None ->
     get_enhanced_chatbot_response user_input chat_history t
     = (Raises (KeyError (PStr "choices")),
        (t ++ [Sent (chat_request user_input chat_history)])%list))
    /\ (lookup "choices" items = Some (PList []) ->
        get_enhanced_chatbot_response user_input chat_history t
        = (Raises IndexError, (t ++ [Sent (chat_request user_input chat_history)])%list))
    /\ (lookup "choices" items = Some PNone ->
        get_enhanced_chatbot_response user_input chat_history t
        = (Raises TypeError, (t ++ [Sent (chat_request user_input chat_history)])%list)).
Proof.
  intros Hkey user_input chat_history t items Hok.
  rewrite (chat_on_success _ _ t _ Hkey Hok).
  unfold try_except, bind, lift, getitem.
  repeat split; intros H; rewrite H; reflexivity.
Qed.

Lemma length_last_entries {A} (n : nat) (l : list A) :
  List.length (last_entries n l) = Nat.min n (List.length l).
Proof.
  unfold last_entries. rewrite length_skipn. lia.
Qed.

Lemma last_entries_short {A} (n : nat) (l : list A) :
  (List.length l <= n)%nat -> last_entries n l = l.
Proof.
  intros H. unfold last_entries.
  replace (List.length l - n)%nat with 0%nat by lia. reflexivity.
Qed.

(** X3. With a credential, for every history, short ones included, the
    one request sent carries [min (len history) 5 + 2] messages, hence
    between 2 and 7; a history of at most five messages is forwarded
    whole, each message as the object of its role and its content, between
    the system message and the user-role message holding the new input. *)
Theorem chat_payload_size_is_bounded :
  truthy_key GROQ_API_KEY = true ->
  forall (user_input : string) (chat_history : list chat) (t : trace),
    exists req msgs,
      sent (snd (get_enhanced_chatbot_response user_input chat_history t))
      = (sent t ++ [req])%list
      /\ request_messages req = Some msgs
      /\ List.length msgs = (Nat.min 5 (List.length chat_history) + 2)%nat
      /\ (2 <= List.length msgs <= 7)%nat
      /\ ((List.length chat_history <= 5)%nat ->
          msgs = ([PDict [("role", PStr "system");
                           ("content", PStr "You are an expert AI assistant specializing in logistics, shipping, trucking, and freight forwarding. Provide accurate, helpful, and concise information to user queries. Always maintain a friendly and professional tone.")]]
                  ++ map (fun c => PDict [("role", PStr (role c)); ("content", PStr (content c))])
                       chat_history
                  ++ [PDict [("role", PStr "user"); ("content", PStr user_input)]])%list).
Proof.
  intros Hkey user_input chat_history t.
  exists (chat_request user_input chat_history), (chat_messages user_input chat_history).
  assert (Hlen : List.length (chat_messages user_input chat_history)
                 = (Nat.min 5 (List.length chat_history) + 2)%nat).
  { unfold chat_messages. rewrite !length_app, length_map, length_last_entries. cbn. lia. }
  split; [now apply chat_sends_one_request|].
  split; [reflexivity|]. split; [exact Hlen|]. split; [lia|].
  intros Hshort. unfold chat_messages. now rewrite last_entries_short.
Qed.

(** ** What the three functions let escape *)

Lemma try_except_catches {A} (body : IO A) (handler : request_exception -> IO A) :
  (forall k t, exists a t', handler k t = (Returns a, t')) ->
  forall t k, fst (try_except body handler t) <> Raises (RequestException k).
Proof.
  intros Hh t k. unfold try_except.
  destruct (body t) as [[a|[k'| | |]] t']; cbn; try discriminate.
  destruct (Hh k' t') as [a [t'' ->]]. discriminate.
Qed.

(** X4. No [RequestException] ever leaves [get_enhanced_chatbot_response],
    [get_shipping_rates] or [track_shipment], whatever the credentials, the
    arguments and the backend's reply. *)
Theorem request_exceptions_never_escape :
  forall k : request_exception,
    (forall user_input chat_history t,
        fst (get_enhanced_chatbot_response user_input chat_history t)
        <> Raises (RequestException k))
    /\ (forall origin destination weight length width height t,
          fst (get_shipping_rates origin destination weight length width height t)
          <> Raises (RequestException k))
    /\ (forall tracking_number carrier t,
          fst (track_shipment tracking_number carrier t) <> Raises (RequestException k)).
Proof.
  intros k. repeat split.
  - intros user_input chat_history t. unfold get_enhanced_chatbot_response.
    destruct (negb (truthy_key GROQ_API_KEY)); [discriminate|].
    apply try_except_catches. intros k' t'. eexists. eexists. reflexivity.
  - intros origin destination weight length width height t. unfold get_shipping_rates.
    apply try_except_catches. intros k' t'. eexists. eexists. reflexivity.
  - intros tracking_number carrier t. unfold track_shipment.
    destruct (negb (truthy_key SHIPPO_API_KEY)); [discriminate|].
    apply try_except_catches. intros k' t'. eexists. eexists. reflexivity.
Qed.

(** X5. With a shipping credential, every run of [track_shipment] makes
    exactly one call, whatever the backend replies: a GET, with no body, on
    the URL that holds the carrier and then the tracking number as path
    segments, under the [ShippoToken] header. *)
Theorem track_sends_one_get_request :
  truthy_key SHIPPO_API_KEY = true ->
  forall (tracking_number carrier : string) (t : trace),
    sent (snd (track_shipment tracking_number carrier t))
    = (sent t
       ++ [mkRequest GET
             ("https://api.goshippo.com/tracks/" ++ carrier ++ "/" ++ tracking_number ++ "/")%string
             [("Authorization", ("ShippoToken " ++ key_text SHIPPO_API_KEY)%string)]
             None])%list.
Proof.
  intros Hkey tracking_number carrier t.
  change (mkRequest GET _ _ None) with (track_request tracking_number carrier).
  unfold track_shipment. rewrite Hkey. cbn [negb].
  unfold try_except. unfold bind at 1. unfold requests_call.
  destruct (backend _) as [k|r].
  - cbn. rewrite !sent_app. cbn. now rewrite app_nil_r.
  - match goal with
    | |- context [bind (raise_for_status r) ?k ?t0] =>
        assert (Hq : quiet (bind (raise_for_status r) k)) by quiet_steps;
        specialize (Hq t0);
        destruct (bind (raise_for_status r) k t0) as [[a|[e| | |]] t']
    end; cbn in Hq; subst t'; cbn; rewrite ?sent_app; cbn; rewrite ?app_nil_r; reflexivity.
Qed.

(** ** More on the rate quotes *)

(** X6. A successful response whose ["rates"] is present but false in
    Python's sense ([null], [false], [0], the empty string, list or
    object) gets the "no rates found" message, like a missing key. *)
Theorem rates_falsy_value_is_no_rates :
  forall (origin destination weight length width height : value) (t : trace)
         (items : list (string * value)) (v : value),
    succeeded (backend (rates_request origin destination weight length width height))
              (PDict items) ->
    lookup "rates" items = Some v ->
    truthy v = false ->
    fst (get_shipping_rates origin destination weight length width height t)
    = Returns no_rates_message.
Proof.
  intros origin destination weight length width height t items v Hok Hrates Hfalse.
  rewrite (rates_on_success _ _ _ _ _ _ t _ Hok).
  unfold try_except, bind, lift, contains, getitem. rewrite Hrates. cbn [ret].
  rewrite Hfalse. reflexivity.
Qed.

(** What [rate_line] does is decided by the entry alone. *)
Lemma rate_line_pure (rate : value) (t : trace) :
  rate_line rate t = (fst (rate_line rate []), t).
Proof.
  unfold rate_line, bind, lift.
  destruct (getitem rate "provider"); [|reflexivity].
  destruct (getitem rate "amount"); [|reflexivity].
  destruct (getitem rate "duration_terms"); reflexivity.
Qed.

Lemma for_each_rate_line_pure (rates : list value) (t : trace) :
  for_each rate_line rates t = (fst (for_each rate_line rates []), t).
Proof.
  revert t. induction rates as [|rate rates IH]; intros t; [reflexivity|].
  cbn [for_each]. unfold bind at 1 3. rewrite (rate_line_pure rate t).
  destruct (fst (rate_line rate [])) as [line|e] eqn:E.
  - rewrite (rate_line_pure rate []), E. unfold bind.
    rewrite (IH t), (IH []). destruct (fst (for_each rate_line rates [])); reflexivity.
  - rewrite (rate_line_pure rate []), E. reflexivity.
Qed.

Lemma getitem_raises_no_request_exception (v : value) (key : string) (k : request_exception) :
  getitem v key <> Raises (RequestException k).
Proof.
  unfold getitem. destruct v; try discriminate. destruct (lookup key items); discriminate.
Qed.

Lemma rate_line_raises_no_request_exception (rate : value) (k : request_exception) :
  fst (rate_line rate []) <> Raises (RequestException k).
Proof.
  unfold rate_line, bind, lift.
  destruct (getitem rate "provider") eqn:E1;
    [|cbn; intros H; injection H as ->; exact (getitem_raises_no_request_exception _ _ _ E1)].
  destruct (getitem rate "amount") eqn:E2;
    [|cbn; intros H; injection H as ->; exact (getitem_raises_no_request_exception _ _ _ E2)].
  destruct (getitem rate "duration_terms") eqn:E3;
    [discriminate|].
  cbn; intros H; injection H as ->; exact (getitem_raises_no_request_exception _ _ _ E3).
Qed.

Lemma for_each_rate_line_raises_no_request_exception
    (rates : list value) (k : request_exception) :
  fst (for_each rate_line rates []) <> Raises (RequestException k).
Proof.
  induction rates as [|rate rates IH]; [discriminate|].
  cbn [for_each]. unfold bind at 1. rewrite (rate_line_pure rate []).
  destruct (fst (rate_line rate [])) as [line|e] eqn:E.
  - unfold bind. rewrite (for_each_rate_line_pure rates []).
    destruct (fst (for_each rate_line rates [])) as [lines|e'] eqn:E'; [discriminate|].
    cbn. intros H. injection H as ->. now apply IH.
  - cbn. intros H. injection H as ->. exact (rate_line_raises_no_request_exception _ _ E).
Qed.

(** On a successful response with a non-empty ["rates"] list, the result
    is what the loop over the first five entries gives. *)
Lemma rates_of_first_five
    (origin destination weight length width height : value) (t : trace)
    (items : list (string * value)) (first : value) (others : list value) :
  succeeded (backend (rates_request origin destination weight length width height))
            (PDict items) ->
  lookup "rates" items = Some (PList (first :: others)) ->
  fst (get_shipping_rates origin destination weight length width height t)
  = match fst (for_each rate_line (firstn 5 (first :: others)) []) with
    | Returns lines => Returns (rates_header ++ Str.nl ++ String.concat Str.nl lines)
    | Raises e => Raises e
    end.
Proof.
  intros Hok Hrates.
  rewrite (rates_on_success _ _ _ _ _ _ t _ Hok).
  unfold try_except, bind, lift, contains, getitem. rewrite Hrates.
  cbn [truthy slice_to iter ret]. rewrite for_each_rate_line_pure.
  pose proof (for_each_rate_line_raises_no_request_exception (firstn 5 (first :: others))) as Hno.
  destruct (fst (for_each rate_line (firstn 5 (first :: others)) [])) as [lines|[k| | |]];
    try reflexivity.
  exfalso. now apply (Hno k).
Qed.

Lemma rate_line_missing_field (bad : list (string * value)) (field : string) (t : trace) :
  missing_rate_field bad = Some field ->
  rate_line (PDict bad) t = (Raises (KeyError (PStr field)), t).
Proof.
  unfold missing_rate_field, rate_line, bind, lift, getitem. intros H.
  destruct (lookup "provider" bad); [|now injection H as <-].
  destruct (lookup "amount" bad); [|now injection H as <-].
  destruct (lookup "duration_terms" bad); [discriminate|now injection H as <-].
Qed.

Lemma for_each_rate_line_stops (good : list value) (bad : list (string * value))
    (field : string) (after : list value) (t : trace) :
  Forall is_rate_entry good ->
  missing_rate_field bad = Some field ->
  for_each rate_line (good ++ PDict bad :: after)%list t = (Raises (KeyError (PStr field)), t).
Proof.
  intros Hgood Hbad. induction Hgood as [|rate good [p [a [d Hrate]]] _ IH].
  - cbn [app for_each]. unfold bind at 1. now rewrite (rate_line_missing_field _ _ t Hbad).
  - cbn [app for_each]. unfold bind at 1.
    rewrite (rate_line_of_entry _ _ _ _ t Hrate). unfold bind at 1. now rewrite IH.
Qed.

(** X7. When one of the first five entries of ["rates"] is an object that
    lacks [provider], [amount] or [duration_terms] (the entries before it
    being complete), [get_shipping_rates] returns no text at all: the
    [KeyError] naming the first missing field leaves the function. *)
Theorem rates_incomplete_entry_raises :
  forall (origin destination weight length width height : value) (t : trace)
         (items : list (string * value)) (good : list value)
         (bad : list (string * value)) (after : list value) (field : string),
    succeeded (backend (rates_request origin destination weight length width height))
              (PDict items) ->
    lookup "rates" items = Some (PList (good ++ PDict bad :: after)%list) ->
    (List.length good < 5)%nat ->
    Forall is_rate_entry good ->
    missing_rate_field bad = Some field ->
    fst (get_shipping_rates origin destination weight length width height t)
    = Raises (KeyError (PStr field)).
Proof.
  intros origin destination weight length width height t items good bad after field
         Hok Hrates Hlen Hgood Hbad.
  assert (Hne : exists first others, (good ++ PDict bad :: after)%list = first :: others).
  { destruct good; cbn; eauto. }
  destruct Hne as [first [others Hne]]. rewrite Hne in Hrates.
  rewrite (rates_of_first_five _ _ _ _ _ _ t _ _ _ Hok Hrates). rewrite <- Hne.
  rewrite firstn_app, (firstn_all2 good) by lia.
  destruct (5 - List.length good)%nat as [|m] eqn:Hm; [lia|].
  cbn [firstn]. now rewrite (for_each_rate_line_stops good bad field _ [] Hgood Hbad).
Qed.

(** ** More on tracking *)

(** X8. When the tracking object has an ["eta"] key, its value is what the
    third line shows, whatever it is: "Not available" is used for an
    absent key only, so an [eta] that is present and [null] is rendered as
    [str(None)]. *)
Theorem track_with_eta_shows_its_value :
  truthy_key SHIPPO_API_KEY = true ->
  forall (tracking_number carrier : string) (t : trace)
         (items ts loc : list (string * value)) (status city country eta : value),
    succeeded (backend (track_request tracking_number carrier)) (PDict items) ->
    lookup "tracking_status" items = Some (PDict ts) ->
    lookup "status" ts = Some status ->
    lookup "location" ts = Some (PDict loc) ->
    lookup "city" loc = Some city ->
    lookup "country" loc = Some country ->
    lookup "eta" items = Some eta ->
    fst (track_shipment tracking_number carrier t)
    = Returns ("Tracking Status: " ++ py_str status ++ Str.nl
               ++ "Current Location: " ++ py_str city ++ ", " ++ py_str country ++ Str.nl
               ++ "Estimated Delivery: " ++ py_str eta)
    /\ (eta = PNone ->
        fst (track_shipment tracking_number carrier t)
        = Returns ("Tracking Status: " ++ py_str status ++ Str.nl
                   ++ "Current Location: " ++ py_str city ++ ", " ++ py_str country ++ Str.nl
                   ++ "Estimated Delivery: " ++ str_other PNone)).
Proof.
  intros Hkey tracking_number carrier t items ts loc status city country eta
         Hok Hts Hstatus Hloc Hcity Hcountry Heta.
  assert (Hrun : fst (track_shipment tracking_number carrier t)
                 = Returns ("Tracking Status: " ++ py_str status ++ Str.nl
                            ++ "Current Location: " ++ py_str city ++ ", " ++ py_str country
                            ++ Str.nl ++ "Estimated Delivery: " ++ py_str eta)).
  { rewrite (track_on_success _ _ t _ Hkey Hok).
    unfold try_except, bind, lift, contains, getitem.
    now rewrite Hts, Hstatus, Hloc, Hcity, Hcountry, Heta. }
  split; [exact Hrun|]. intros ->. exact Hrun.
Qed.

(** X9. A successful response in which ["tracking_status"] is present but
    is not an object (the backend sends [null] where it knows nothing)
    makes [track_shipment] raise [TypeError]; so does one in which
    ["tracking_status"] is an object that has a ["status"] and whose
    ["location"] is present but is not an object.  The caller gets no
    message. *)
Theorem track_null_object_raises_type_error :
  truthy_key SHIPPO_API_KEY = true ->
  forall (tracking_number carrier : string) (t : trace)
         (items : list (string * value)) (v : value),
    succeeded (backend (track_request tracking_number carrier)) (PDict items) ->
    (forall fields, v <> PDict fields) ->
    (lookup "tracking_status" items = Some v ->
     fst (track_shipment tracking_number carrier t) = Raises TypeError)
    /\ (forall ts status,
          lookup "tracking_status" items = Some (PDict ts) ->
          lookup "status" ts = Some status ->
          lookup "location" ts = Some v ->
          fst (track_shipment tracking_number carrier t) = Raises TypeError).
Proof.
  intros Hkey tracking_number carrier t items v Hok Hv.
  rewrite (track_on_success _ _ t _ Hkey Hok).
  unfold try_except, bind, lift, contains, getitem. split.
  - intros Hts. rewrite Hts.
    destruct v as [| | | | | |fields]; try reflexivity. now destruct (Hv fields).
  - intros ts status Hts Hstatus Hloc. rewrite Hts, Hstatus, Hloc.
    destruct v as [| | | | | |fields]; try reflexivity. now destruct (Hv fields).
Qed.

(** ** More on the fallback table *)

Lemma topic_responses_are_not_the_prompt (topic response : string) :
  In (topic, response) logistics_topics -> response <> generic_prompt.
Proof.
  intros Hin. cbn in Hin.
  repeat (destruct Hin as [Hin|Hin]; [injection Hin as <- <-; discriminate|]).
  destruct Hin.
Qed.

Lemma first_topic_found (items : list (string * string)) (text response : string) :
  first_topic items text = Some response ->
  exists topic, In (topic, response) items /\ Str.contains topic text = true.
Proof.
  induction items as [|[t r] items IH]; cbn [first_topic]; [discriminate|].
  destruct (Str.contains t text) eqn:E.
  - intros H. injection H as <-. exists t. split; [now left | exact E].
  - intros H. destruct (IH H) as [topic [Hin Hc]]. exists topic. split; [now right | exact Hc].
Qed.

Lemma first_topic_finds (items : list (string * string)) (text topic response : string) :
  In (topic, response) items -> Str.contains topic text = true ->
  exists response', first_topic items text = Some response'.
Proof.
  induction items as [|[t r] items IH]; intros Hin Hc; [destruct Hin|].
  cbn [first_topic]. destruct (Str.contains t text) eqn:E; [eauto|].
  destruct Hin as [Hin|Hin]; [|now apply IH].
  injection Hin as -> ->. congruence.
Qed.

Lemma contains_inside (sub text pre post : string) :
  Str.contains sub text = true -> Str.contains sub (pre ++ text ++ post) = true.
Proof.
  rewrite !contains_occurs. intros [a [b ->]].
  exists (pre ++ a), (b ++ post). now rewrite !append_assoc.
Qed.

(** The fallback gives a topic's response exactly when some phrase of the
    table occurs in the lower-cased input. *)
Lemma fallback_answers_iff (user_input : string) :
  get_fallback_response user_input <> generic_prompt
  <-> exists topic response,
        In (topic, response) logistics_topics
        /\ Str.contains topic (lower user_input) = true.
Proof.
  unfold get_fallback_response. split.
  - destruct (first_topic logistics_topics (lower user_input)) as [r|] eqn:E;
      [|intros H; now destruct H].
    intros _. destruct (first_topic_found _ _ _ E) as [topic [Hin Hc]]. now exists topic, r.
  - intros [topic [response [Hin Hc]]].
    destruct (first_topic_finds _ _ _ _ Hin Hc) as [r' E]. rewrite E.
    destruct (first_topic_found _ _ _ E) as [topic' [Hin' _]].
    exact (topic_responses_are_not_the_prompt _ _ Hin').
Qed.

(** X10. No entry of the table is dead: a message that is exactly one of
    the ten topic phrases gets that topic's own response, none being
    shadowed by a phrase that comes before it. *)
Theorem every_topic_phrase_gets_its_response :
  Forall (fun entry => lower (fst entry) = fst entry) logistics_topics ->
  forall topic response : string,
    In (topic, response) logistics_topics ->
    get_fallback_response topic = response.
Proof.
  intros Hfix topic response Hin. unfold get_fallback_response.
  assert (Hlow : lower topic = topic).
  { rewrite Forall_forall in Hfix. exact (Hfix (topic, response) Hin). }
  rewrite Hlow. cbn in Hin.
  repeat (destruct Hin as [Hin|Hin]; [injection Hin as <- <-; reflexivity|]).
  destruct Hin.
Qed.

(** X11. Text added before and after a message does not lose its answer:
    if the fallback answers [user_input] with a topic's response, it
    answers [pre ++ user_input ++ post] with a topic's response too (that
    of the same topic or of one earlier in the table), not with the generic
    prompt.  The hypothesis is on the three texts at hand: the lower-cased
    whole holds the lower-cased message in place. *)
Theorem surrounding_text_keeps_a_topic_answer :
  forall pre user_input post : string,
    (exists before after,
        lower (pre ++ user_input ++ post) = before ++ lower user_input ++ after) ->
    get_fallback_response user_input <> generic_prompt ->
    get_fallback_response (pre ++ user_input ++ post) <> generic_prompt.
Proof.
  intros pre user_input post [before [after Hwhole]]. rewrite !fallback_answers_iff.
  intros [topic [response [Hin Hc]]]. exists topic, response. split; [exact Hin|].
  rewrite Hwhole. now apply contains_inside.
Qed.

(** ** The tools that ask the orchestrator *)

(** X12. When the chat backend is not configured or its call fails, the
    two information tools do not answer with the generic prompt, whatever
    the query: the prompt wrapped around the query names the tool's own
    topic, so the trucking tool returns the response of one of the first
    three topics of the table (trucking or one before it) and the freight
    forwarding tool that of one of the first four.  The hypothesis of each
    half is that the lower-cased prompt still ends with the prompt's tail,
    which is written in lower case. *)
Theorem information_tools_fall_back_to_their_topic :
  forall (query : string) (t : trace),
    ((exists head, lower (trucking_prompt query)
                   = head ++ " in the context of trucking and transportation.") ->
     truthy_key GROQ_API_KEY = false
     \/ failed (backend (chat_request (trucking_prompt query) [])) ->
     exists r, fst (trucking_info query t) = Returns (PStr r)
               /\ In r (map snd (firstn 3 logistics_topics)))
    /\ ((exists head, lower (freight_prompt query)
                      = head ++ " in the context of freight forwarding.") ->
        truthy_key GROQ_API_KEY = false
        \/ failed (backend (chat_request (freight_prompt query) [])) ->
        exists r, fst (freight_info query t) = Returns (PStr r)
                  /\ In r (map snd (firstn 4 logistics_topics))).
Proof.
  intros query t. split; intros [head Htail] Hoff.
  - unfold trucking_info. rewrite (chat_fallback_value _ _ t Hoff).
    eexists. split; [reflexivity|].
    unfold get_fallback_response. rewrite Htail.
    set (text := head ++ _).
    assert (Hc : Str.contains "trucking" text = true).
    { apply contains_occurs.
      exists (head ++ " in the context of "), " and transportation.".
      subst text. now rewrite !append_assoc. }
    unfold logistics_topics. cbn [first_topic].
    destruct (Str.contains "shipping rates" text); [cbn; tauto|].
    destruct (Str.contains "track shipment" text); [cbn; tauto|].
    rewrite Hc. cbn. tauto.
  - unfold freight_info. rewrite (chat_fallback_value _ _ t Hoff).
    eexists. split; [reflexivity|].
    unfold get_fallback_response. rewrite Htail.
    set (text := head ++ _).
    assert (Hc : Str.contains "freight forwarding" text = true).
    { apply contains_occurs.
      exists (head ++ " in the context of "), ".".
      subst text. now rewrite !append_assoc. }
    unfold logistics_topics. cbn [first_topic].
    destruct (Str.contains "shipping rates" text); [cbn; tauto|].
    destruct (Str.contains "track shipment" text); [cbn; tauto|].
    destruct (Str.contains "trucking" text); [cbn; tauto|].
    rewrite Hc. cbn. tauto.
Qed.

(** ** The greeting and the timestamp *)

(** X13. The greeting is decided by the hour alone and the three periods
    cover the day with no gap: morning exactly for hours before 12,
    afternoon exactly for 12 to 17, evening exactly from 18 on.  The three
    texts differ, so the text read tells the period. *)
Theorem greeting_tells_the_period :
  forall now : datetime,
    (get_greeting now = morning_greeting <-> hour now < 12)
    /\ (get_greeting now = afternoon_greeting <-> 12 <= hour now < 18)
    /\ (get_greeting now = evening_greeting <-> 18 <= hour now).
Proof.
  intros now. unfold get_greeting.
  assert (Hma : morning_greeting <> afternoon_greeting) by discriminate.
  assert (Hme : morning_greeting <> evening_greeting) by discriminate.
  assert (Hae : afternoon_greeting <> evening_greeting) by discriminate.
  destruct (hour now <? 12) eqn:E1; [|destruct (hour now <? 18) eqn:E2].
  - apply Z.ltb_lt in E1.
    split; [|split]; (split; intros H0; [try lia; congruence | try lia; try reflexivity]).
  - apply Z.ltb_ge in E1. apply Z.ltb_lt in E2.
    split; [|split]; (split; intros H0; [try lia; congruence | try lia; try reflexivity]).
  - apply Z.ltb_ge in E1. apply Z.ltb_ge in E2.
    split; [|split]; (split; intros H0; [try lia; congruence | try lia; try reflexivity]).
Qed.

Lemma digit_inj (a b : Z) :
  0 <= a < 10 -> 0 <= b < 10 -> digit a = digit b -> a = b.
Proof.
  intros Ha Hb H. unfold digit in H. apply (f_equal nat_of_ascii) in H.
  rewrite !nat_ascii_embedding in H by lia. lia.
Qed.

Lemma pad2_inj (a b : Z) :
  0 <= a < 100 -> 0 <= b < 100 -> pad2 a = pad2 b -> a = b.
Proof.
  intros Ha Hb H. unfold pad2 in H. injection H as H1 H0.
  apply digit_inj in H1; [|Z.div_mod_to_equations; lia|Z.div_mod_to_equations; lia].
  apply digit_inj in H0; [|Z.div_mod_to_equations; lia|Z.div_mod_to_equations; lia].
  Z.div_mod_to_equations. lia.
Qed.

Lemma pad4_inj (a b : Z) :
  0 <= a < 10000 -> 0 <= b < 10000 -> pad4 a = pad4 b -> a = b.
Proof.
  intros Ha Hb H. unfold pad4 in H. injection H as H3 H2 H1 H0.
  apply digit_inj in H3; [|Z.div_mod_to_equations; lia|Z.div_mod_to_equations; lia].
  apply digit_inj in H2; [|Z.div_mod_to_equations; lia|Z.div_mod_to_equations; lia].
  apply digit_inj in H1; [|Z.div_mod_to_equations; lia|Z.div_mod_to_equations; lia].
  apply digit_inj in H0; [|Z.div_mod_to_equations; lia|Z.div_mod_to_equations; lia].
  Z.div_mod_to_equations. lia.
Qed.

(** X14. The timestamp is always 19 characters long, and on datetimes
    within range it identifies the second: two of them get the same text
    exactly when they agree on year, month, day, hour, minute and second
    (the microseconds are dropped). *)
Theorem timestamp_identifies_the_second :
  forall d1 d2 : datetime,
    valid_datetime d1 -> valid_datetime d2 ->
    String.length (format_timestamp d1) = 19%nat
    /\ (format_timestamp d1 = format_timestamp d2
        <-> year d1 = year d2 /\ month d1 = month d2 /\ day d1 = day d2
            /\ hour d1 = hour d2 /\ minute d1 = minute d2 /\ second d1 = second d2).
Proof.
  intros d1 d2 V1 V2. split; [reflexivity|]. split.
  - intros H. unfold format_timestamp in H.
    unfold valid_datetime in V1, V2.
    remember (pad4 (year d1)) as y1 eqn:Ey1. remember (pad4 (year d2)) as y2 eqn:Ey2.
    remember (pad2 (month d1)) as m1 eqn:Em1. remember (pad2 (month d2)) as m2 eqn:Em2.
    remember (pad2 (day d1)) as a1 eqn:Ea1. remember (pad2 (day d2)) as a2 eqn:Ea2.
    remember (pad2 (hour d1)) as h1 eqn:Eh1. remember (pad2 (hour d2)) as h2 eqn:Eh2.
    remember (pad2 (minute d1)) as n1 eqn:En1. remember (pad2 (minute d2)) as n2 eqn:En2.
    remember (pad2 (second d1)) as s1 eqn:Es1. remember (pad2 (second d2)) as s2 eqn:Es2.
    assert (Hy : y1 = y2 /\ m1 = m2 /\ a1 = a2 /\ h1 = h2 /\ n1 = n2 /\ s1 = s2).
    { unfold pad4 in Ey1, Ey2. unfold pad2 in Em1, Em2, Ea1, Ea2, Eh1, Eh2, En1, En2, Es1, Es2.
      subst. cbn [append] in H. injection H as -> -> -> -> -> -> -> -> -> -> -> -> -> ->.
      repeat split; reflexivity. }
    destruct Hy as [Hy [Hm [Ha [Hh [Hn Hs]]]]]. subst.
    repeat split;
      first [ apply pad4_inj; solve [lia | assumption | symmetry; assumption]
            | apply pad2_inj; solve [lia | assumption | symmetry; assumption] ].
  - intros [Hy [Hm [Ha [Hh [Hn Hs]]]]]. unfold format_timestamp.
    now rewrite Hy, Hm, Ha, Hh, Hn, Hs.
Qed.

(** ** The Home page: replies and the session's history *)

Lemma chatbot_response_trace (now : datetime) (user_input : string)
    (session_history : list chat) (t : trace) :
  snd (get_chatbot_response now user_input session_history t)
  = snd (get_enhanced_chatbot_response user_input session_history t).
Proof.
  unfold get_chatbot_response, bind.
  destruct (get_enhanced_chatbot_response user_input session_history t) as [[v|e] t'];
    reflexivity.
Qed.

Lemma chatbot_response_offline (now : datetime) (user_input : string)
    (session_history : list chat) (t : trace) :
  truthy_key GROQ_API_KEY = false
  \/ failed (backend (chat_request user_input session_history)) ->
  fst (get_chatbot_response now user_input session_history t)
  = Returns (robot ++ " " ++ get_fallback_response user_input
             ++ " (sent at " ++ format_timestamp now ++ ")").
Proof.
  intros Hoff. pose proof (chat_fallback_value user_input session_history t Hoff) as H.
  unfold get_chatbot_response, bind.
  destruct (get_enhanced_chatbot_response user_input session_history t) as [o t'].
  cbn in H. subst o. reflexivity.
Qed.

(** X15. The reply shown on the Home page is the orchestrator's text
    between the robot face and the time of the request: with no chat
    credential or a failed call it is the fallback text so decorated, and
    on a successful completion the completion's content so decorated, the
    timestamp being the reading taken before the call. *)
Theorem chatbot_reply_is_decorated :
  forall (now : datetime) (user_input : string) (session_history : list chat) (t : trace),
    (truthy_key GROQ_API_KEY = false
     \/ failed (backend (chat_request user_input session_history)) ->
     fst (get_chatbot_response now user_input session_history t)
     = Returns (robot ++ " " ++ get_fallback_response user_input
                ++ " (sent at " ++ format_timestamp now ++ ")"))
    /\ (forall items choice_items msg_items more_choices c,
          truthy_key GROQ_API_KEY = true ->
          succeeded (backend (chat_request user_input session_history)) (PDict items) ->
          lookup "choices" items = Some (PList (PDict choice_items :: more_choices)) ->
          lookup "message" choice_items = Some (PDict msg_items) ->
          lookup "content" msg_items = Some (PStr c) ->
          fst (get_chatbot_response now user_input session_history t)
          = Returns (robot ++ " " ++ c ++ " (sent at " ++ format_timestamp now ++ ")")).
Proof.
  intros now user_input session_history t. split.
  - apply chatbot_response_offline.
  - intros items choice_items msg_items more_choices c Hkey Hok Hchoices Hmsg Hcontent.
    unfold get_chatbot_response, bind.
    rewrite (chat_on_success _ _ t _ Hkey Hok).
    unfold try_except, bind, lift, getitem. rewrite Hchoices.
    cbn [getindex index_of List.length]. cbn. now rewrite Hmsg, Hcontent.
Qed.

Lemma last_entries_snoc {A} (n : nat) (l : list A) (x : A) :
  last_entries (S n) (l ++ [x])%list = (last_entries n l ++ [x])%list.
Proof.
  unfold last_entries. rewrite length_app. cbn [List.length].
  replace (List.length l + 1 - S n)%nat with (List.length l - n)%nat by lia.
  rewrite skipn_app.
  replace (List.length l - n - List.length l)%nat with 0%nat by lia. reflexivity.
Qed.

(** X16. Pressing Send with a non-empty text and a chat credential makes
    one request, and its payload ends with the user's message twice, as
    two user-role objects holding the text: the message is appended to the
    history before the orchestrator reads the history's last five entries,
    and the orchestrator appends it again.  Only the four messages before
    it are left in the window (all of them when the history has at most
    four). *)
Theorem send_forwards_the_user_message_twice :
  truthy_key GROQ_API_KEY = true ->
  forall (now : datetime) (user_input : string) (chat_history : list chat) (t : trace),
    user_input <> "" ->
    exists req msgs,
      sent (snd (send_click now user_input chat_history t)) = (sent t ++ [req])%list
      /\ request_messages req = Some msgs
      /\ (forall earlier recent,
            chat_history = (earlier ++ recent)%list ->
            List.length recent = 4%nat ->
            msgs = ([PDict [("role", PStr "system");
                             ("content", PStr "You are an expert AI assistant specializing in logistics, shipping, trucking, and freight forwarding. Provide accurate, helpful, and concise information to user queries. Always maintain a friendly and professional tone.")]]
                    ++ map (fun c => PDict [("role", PStr (role c));
                                            ("content", PStr (content c))]) recent
                    ++ [PDict [("role", PStr "user"); ("content", PStr user_input)];
                        PDict [("role", PStr "user"); ("content", PStr user_input)]])%list)
      /\ ((List.length chat_history <= 4)%nat ->
          msgs = ([PDict [("role", PStr "system");
                           ("content", PStr "You are an expert AI assistant specializing in logistics, shipping, trucking, and freight forwarding. Provide accurate, helpful, and concise information to user queries. Always maintain a friendly and professional tone.")]]
                  ++ map (fun c => PDict [("role", PStr (role c));
                                          ("content", PStr (content c))]) chat_history
                  ++ [PDict [("role", PStr "user"); ("content", PStr user_input)];
                      PDict [("role", PStr "user"); ("content", PStr user_input)]])%list).
Proof.
  intros Hkey now user_input chat_history t Hne.
  exists (chat_request user_input (chat_history ++ [mkChat "user" user_input])%list).
  exists (chat_messages user_input (chat_history ++ [mkChat "user" user_input])%list).
  split; [|split; [reflexivity|split]].
  - unfold send_click. apply String.eqb_neq in Hne. rewrite Hne. cbn [negb].
    rewrite <- (chat_sends_one_request user_input _ t Hkey).
    rewrite <- (chatbot_response_trace now).
    destruct (get_chatbot_response now user_input _ t) as [[reply|e] t']; reflexivity.
  - intros earlier recent -> Hlen. unfold chat_messages.
    rewrite last_entries_snoc, (last_entries_app 4 earlier recent Hlen), map_app.
    cbn [map role content]. unfold message. now rewrite <- !app_assoc.
  - intros Hshort. unfold chat_messages.
    rewrite last_entries_snoc, (last_entries_short 4 chat_history Hshort), map_app.
    cbn [map role content]. unfold message. now rewrite <- !app_assoc.
Qed.

(** X17. What a press on Send does to the session's history.  An empty
    text changes nothing and calls nothing.  With a non-empty text and no
    working chat backend (no credential, or a failed call) the history
    grows by the user's message and then the decorated fallback reply.
    When the backend answers with a body that has no ["choices"], the
    press raises [KeyError] and the history keeps the user's message with
    no reply after it. *)
Theorem send_updates_the_history :
  forall (now : datetime) (user_input : string) (chat_history : list chat) (t : trace),
    (send_click now "" chat_history t = (Returns tt, chat_history, t))
    /\ (user_input <> "" ->
        truthy_key GROQ_API_KEY = false
        \/ failed (backend (chat_request user_input
                              (chat_history ++ [mkChat "user" user_input])%list)) ->
        fst (send_click now user_input chat_history t)
        = (Returns tt,
           (chat_history
            ++ [mkChat "user" user_input;
                mkChat "assistant"
                  (robot ++ " " ++ get_fallback_response user_input
                   ++ " (sent at " ++ format_timestamp now ++ ")")%string])%list))
    /\ (forall items,
          user_input <> "" ->
          truthy_key GROQ_API_KEY = true ->
          succeeded (backend (chat_request user_input
                                (chat_history ++ [mkChat "user" user_input])%list))
                    (PDict items) ->
          lookup "choices" items = None ->
          fst (send_click now user_input chat_history t)
          = (Raises (KeyError (PStr "choices")),
             (chat_history ++ [mkChat "user" user_input])%list)).
Proof.
  intros now user_input chat_history t. split; [reflexivity|]. split.
  - intros Hne Hoff. unfold send_click. apply String.eqb_neq in Hne. rewrite Hne. cbn [negb].
    pose proof (chatbot_response_offline now user_input _ t Hoff) as H.
    destruct (get_chatbot_response now user_input _ t) as [o t'].
    cbn in H. subst o. cbn. now rewrite <- app_assoc.
  - intros items Hne Hkey Hok Hmiss. unfold send_click.
    apply String.eqb_neq in Hne. rewrite Hne. cbn [negb].
    unfold get_chatbot_response, bind. rewrite (chat_on_success _ _ t _ Hkey Hok).
    unfold try_except, bind, lift, getitem. rewrite Hmiss. reflexivity.
Qed.

Lemma alternating_app (n : nat) (h k : list chat) :
  (List.length h <= n)%nat ->
  alternating h = true -> alternating (h ++ k)%list = alternating k.
Proof.
  revert h. induction n as [|n IH]; intros [|u [|a rest]] Hlen Halt;
    cbn [alternating app] in *; try reflexivity; try discriminate; cbn in Hlen; try lia.
  apply andb_true_iff in Halt. destruct Halt as [Hroles Hrest]. rewrite Hroles.
  destruct n as [|n]; [lia|].
  cbn [andb]. apply IH; [|exact Hrest].
  assert (List.length rest <= n)%nat by lia.
  revert H. clear. intros H. lia.
Qed.

Lemma alternating_even (n : nat) (h : list chat) :
  (List.length h <= n)%nat -> alternating h = true -> Nat.even (List.length h) = true.
Proof.
  revert h. induction n as [|n IH]; intros [|u [|a rest]] Hlen Halt;
    cbn [alternating List.length] in *; try reflexivity; try discriminate; try lia.
  apply andb_true_iff in Halt. destruct Halt as [_ Hrest].
  cbn [Nat.even]. apply IH; [lia|exact Hrest].
Qed.

Lemma send_click_returns (now : datetime) (user_input : string) (h : list chat) (t : trace)
    (u : unit) (h' : list chat) (t' : trace) :
  send_click now user_input h t = (Returns u, h', t') ->
  h' = h \/ exists reply,
      h' = (h ++ [mkChat "user" user_input; mkChat "assistant" reply])%list.
Proof.
  unfold send_click. destruct (negb (String.eqb user_input "")).
  - destruct (get_chatbot_response now user_input _ t) as [[reply|e] t1]; [|discriminate].
    intros H. injection H as _ <- _. right. exists reply. now rewrite <- app_assoc.
  - intros H. injection H as _ <- _. now left.
Qed.


End App.

(** ** Across backends *)

(** X19. Entries of ["rates"] after the fifth play no part, complete or
    not: two successful responses whose ["rates"] lists share their first
    five entries get the same result from [get_shipping_rates], be it the
    text or the exception of an incomplete entry among the five. *)
Theorem rates_beyond_the_fifth_are_ignored :
  forall (str_other : value -> string) (key : option string) (b1 b2 : request -> reply)
         (origin destination weight length width height : value) (t : trace)
         (items1 items2 : list (string * value)) (five rest1 rest2 : list value),
    succeeded (b1 (rates_request str_other key origin destination weight length width height))
              (PDict items1) ->
    succeeded (b2 (rates_request str_other key origin destination weight length width height))
              (PDict items2) ->
    lookup "rates" items1 = Some (PList (five ++ rest1)%list) ->
    lookup "rates" items2 = Some (PList (five ++ rest2)%list) ->
    List.length five = 5%nat ->
    fst (get_shipping_rates str_other key b1 origin destination weight length width height t)
    = fst (get_shipping_rates str_other key b2 origin destination weight length width height t).
Proof.
  intros str_other key b1 b2 origin destination weight length width height t
         items1 items2 five rest1 rest2 Hok1 Hok2 Hr1 Hr2 Hlen.
  destruct five as [|first others]; [discriminate|].
  cbn [app] in Hr1, Hr2.
  rewrite (rates_of_first_five _ _ _ _ _ _ _ _ _ t _ _ _ Hok1 Hr1).
  rewrite (rates_of_first_five _ _ _ _ _ _ _ _ _ t _ _ _ Hok2 Hr2).
  change (first :: (others ++ rest1)%list) with ((first :: others) ++ rest1)%list.
  change (first :: (others ++ rest2)%list) with ((first :: others) ++ rest2)%list.
  rewrite !firstn_app, !(firstn_all2 (first :: others)) by lia.
  rewrite Hlen. reflexivity.
Qed.

(** ** The session over a series of presses *)

Definition click (lower : string -> string) (str_other : value -> string)
    (GROQ_API_KEY : option string) (a : action) (chat_history : list chat) (t : trace)
    : outcome unit * list chat * trace :=
  match a with
  | Send now user_input network =>
      send_click lower str_other GROQ_API_KEY network now user_input chat_history t
  | Clear => clear_click chat_history t
  end.

(** A series of presses, each on the history the one before left, up to
    the first that raises. *)
Fixpoint run_clicks (lower : string -> string) (str_other : value -> string)
    (GROQ_API_KEY : option string) (acts : list action) (chat_history : list chat)
    (t : trace) : outcome unit * list chat * trace :=
  match acts with
  | [] => (Returns tt, chat_history, t)
  | a :: rest =>
      match click lower str_other GROQ_API_KEY a chat_history t with
      | (Returns _, h', t') => run_clicks lower str_other GROQ_API_KEY rest h' t'
      | (Raises e, h', t') => (Raises e, h', t')
      end
  end.

(** X18. As long as no press raises, the history stays a dialogue: from a
    history in which user and assistant messages alternate (the empty one
    to begin with), any series of presses on Send and Clear that runs to
    its end, whatever the network answers at each press, leaves a history
    that alternates too, so of even length, each user message followed by
    its reply. *)
Theorem completed_clicks_keep_the_dialogue :
  forall (lower : string -> string) (str_other : value -> string)
         (GROQ_API_KEY : option string)
         (acts : list action) (h : list chat) (t : trace) (h' : list chat) (t' : trace),
    alternating h = true ->
    run_clicks lower str_other GROQ_API_KEY acts h t = (Returns tt, h', t') ->
    alternating h' = true /\ Nat.even (List.length h') = true.
Proof.
  intros lower str_other key acts. induction acts as [|a acts IH]; intros h t h' t' Halt Hrun.
  - cbn in Hrun. injection Hrun as <- _.
    split; [exact Halt | now apply (alternating_even (List.length h))].
  - cbn [run_clicks] in Hrun.
    destruct (click lower str_other key a h t) as [[[u|e] h1] t1] eqn:Hclick; [|discriminate].
    apply (IH h1 t1 h' t'); [|exact Hrun].
    destruct a as [now user_input network|]; cbn [click] in Hclick.
    + destruct (send_click_returns _ _ _ _ _ _ _ _ _ _ _ Hclick) as [->|[reply ->]];
        [exact Halt|].
      now rewrite (alternating_app (List.length h)).
    + unfold clear_click in Hclick. now injection Hclick as _ <- _.
Qed.

(** ** Lower-casing of the letters A-Z

    At the instance the sample runs use, "contained case-insensitively" is
    what one expects: some contiguous run of the input equals the phrase
    up to the case of its letters. *)

Lemma ascii_lower_app (a b : string) :
  Str.ascii_lower (a ++ b) = Str.ascii_lower a ++ Str.ascii_lower b.
Proof.
  induction a as [|c a IH]; cbn [append Str.ascii_lower]; [reflexivity | now rewrite IH].
Qed.

Lemma ascii_lower_split (a b s : string) :
  Str.ascii_lower s = a ++ b ->
  exists s1 s2, s = s1 ++ s2 /\ Str.ascii_lower s1 = a /\ Str.ascii_lower s2 = b.
Proof.
  revert s. induction a as [|c a IH]; intros s H.
  - exists "", s. repeat split. exact H.
  - destruct s as [|x s]; cbn [append Str.ascii_lower] in H; [discriminate|].
    injection H as Hc Hrest.
    destruct (IH s Hrest) as [s1 [s2 [-> [H1 H2]]]].
    exists (String x s1), s2. cbn [append Str.ascii_lower]. now rewrite Hc, H1.
Qed.

Lemma ascii_contains_ci_ignores_case (phrase input : string) :
  contains_ci Str.ascii_lower phrase input
  <-> exists pre mid post,
        input = pre ++ mid ++ post /\ Str.ascii_lower mid = Str.ascii_lower phrase.
Proof.
  unfold contains_ci. split.
  - intros [pre' [post' H]].
    destruct (ascii_lower_split _ _ _ H) as [pre [rest [-> [_ Hrest]]]].
    destruct (ascii_lower_split _ _ _ Hrest) as [mid [post [-> [Hmid _]]]].
    now exists pre, mid, post.
  - intros [pre [mid [post [-> Hmid]]]].
    exists (Str.ascii_lower pre), (Str.ascii_lower post).
    now rewrite !ascii_lower_app, Hmid.
Qed.

(** ** The theorems at sample inputs *)

(** An input naming two topics gets the response of the one that comes
    first in the table (customs, before insurance), whatever its casing;
    an input naming none gets the generic prompt. *)
Lemma fallback_first_matching_topic_witness :
  get_fallback_response Str.ascii_lower "Does INSURANCE cover Customs delays?"
  = "Customs procedures are essential for international shipping. They involve declaring goods, paying duties and taxes, and complying with import/export regulations."
  /\ get_fallback_response Str.ascii_lower "what are your rates?" = generic_prompt.
Proof.
  assert (Hfix : Forall (fun entry => Str.ascii_lower (fst entry) = fst entry) logistics_topics)
    by (repeat constructor).
  split.
  - apply (proj1 (fallback_first_matching_topic Str.ascii_lower Hfix _)
             (firstn 4 logistics_topics) "customs" _ (skipn 5 logistics_topics)).
    + reflexivity.
    + exists "does insurance cover ", " delays?". reflexivity.
    + intros t r Hin Hc.
      apply (contains_ci_test Str.ascii_lower) in Hc.
      * cbn in Hin. repeat (destruct Hin as [Hin|Hin]; [injection Hin as <- <-; discriminate Hc|]).
        exact Hin.
      * cbn in Hin. repeat (destruct Hin as [Hin|Hin]; [injection Hin as <- <-; reflexivity|]).
        destruct Hin.
  - apply (proj2 (fallback_first_matching_topic Str.ascii_lower Hfix _)).
    intros t r Hin Hc.
    apply (contains_ci_test Str.ascii_lower) in Hc.
    + cbn in Hin. repeat (destruct Hin as [Hin|Hin]; [injection Hin as <- <-; discriminate Hc|]).
      exact Hin.
    + cbn in Hin. repeat (destruct Hin as [Hin|Hin]; [injection Hin as <- <-; reflexivity|]).
      destruct Hin.
Defined.

(** A backend answering HTTP 500: the fallback text comes back, no
    exception. *)
Lemma chat_failure_defers_to_fallback_witness :
  exists k,
    get_enhanced_chatbot_response Str.ascii_lower (Some "gsk_sample") backend_500
      "Tell me about trucking" (sample_earlier ++ sample_recent)%list []
    = (Returns (PStr (get_fallback_response Str.ascii_lower "Tell me about trucking")),
       ([] ++ [Sent (chat_request (Some "gsk_sample") "Tell me about trucking"
                      (sample_earlier ++ sample_recent)%list);
               Logged "API Error: " k])%list).
Proof.
  apply (chat_failure_defers_to_fallback Str.ascii_lower (Some "gsk_sample") backend_500).
  - reflexivity.
  - apply failed_status. cbn. lia.
Defined.

(** C2 as worded fails on a 300 response that carries a completion: the
    status is outside 2xx, [raise_for_status] lets it pass, and the
    completion is returned instead of the fallback text. *)
Lemma chat_failure_claim_fails_on_status_300 :
  ~ chat_failure_claim Str.ascii_lower (Some "gsk_sample") backend_300
      "Tell me about trucking" [] [].
Proof.
  unfold chat_failure_claim. intros H.
  assert (Hfail : failed_non_2xx
                    (backend_300 (chat_request (Some "gsk_sample") "Tell me about trucking" []))).
  { apply non_2xx_status. cbn. lia. }
  specialize (H eq_refl Hfail). vm_compute in H. discriminate H.
Qed.

(** A 7-message history: the request carries the system message, the last
    five of the seven, and the new user message. *)
Lemma chat_payload_is_system_last_five_user_witness :
  exists req msgs,
    sent (snd (get_enhanced_chatbot_response Str.ascii_lower (Some "gsk_sample") backend_300
                 "Thanks" (sample_earlier ++ sample_recent)%list []))
    = (sent [] ++ [req])%list
    /\ request_messages req = Some msgs
    /\ msgs = [ PDict [("role", PStr "system");
                       ("content", PStr "You are an expert AI assistant specializing in logistics, shipping, trucking, and freight forwarding. Provide accurate, helpful, and concise information to user queries. Always maintain a friendly and professional tone.")];
                PDict [("role", PStr "user"); ("content", PStr "What is LTL?")];
                PDict [("role", PStr "assistant"); ("content", PStr "Less than truckload.")];
                PDict [("role", PStr "user"); ("content", PStr "And FTL?")];
                PDict [("role", PStr "assistant"); ("content", PStr "Full truckload.")];
                PDict [("role", PStr "user"); ("content", PStr "Which is cheaper?")];
                PDict [("role", PStr "user"); ("content", PStr "Thanks")] ]
    /\ List.length msgs = 7%nat.
Proof.
  exact (chat_payload_is_system_last_five_user Str.ascii_lower (Some "gsk_sample") backend_300
           eq_refl "Thanks" sample_earlier sample_recent [] eq_refl).
Defined.

(** No chat credential: the example of the specification. *)
Lemma chat_without_credential_defers_to_fallback_witness :
  get_enhanced_chatbot_response Str.ascii_lower None backend_300 "what are your rates?" [] []
  = (Returns (PStr (get_fallback_response Str.ascii_lower "what are your rates?")), []).
Proof.
  apply (chat_without_credential_defers_to_fallback Str.ascii_lower None backend_300).
  reflexivity.
Defined.

Ltac sample_entries :=
  repeat constructor;
  unfold is_rate_entry, rate_entry; do 4 eexists; repeat split; reflexivity.

Ltac sample_line :=
  unfold formatted, rate_entry; do 6 eexists;
  split; [eexists; repeat split; reflexivity | repeat split; reflexivity].

Ltac sample_lines :=
  repeat (apply Forall2_cons; [sample_line|]); apply Forall2_nil.

(** Seven rate entries: the header and the first five, one per line. *)
Lemma rates_formats_first_five_entries_witness :
  fst (get_shipping_rates str_sample (Some "shippo_sample") backend_seven_rates
         (sample_address "Ann" "Oakland") (sample_address "Bob" "Fresno")
         (PStr "1.0") (PStr "10.0") (PStr "10.0") (PStr "10.0") [])
  = Returns "Available shipping rates:
USPS - $5.50 (1-3 days)
USPS - $7.25 (2 days)
UPS - $9.10 (3 days)
UPS - $14.00 (next day)
FedEx - $11.75 (2 days)".
Proof.
  destruct (proj1 (rates_formats_first_five_entries str_sample (Some "shippo_sample")
                     backend_seven_rates
                     (sample_address "Ann" "Oakland") (sample_address "Bob" "Fresno")
                     (PStr "1.0") (PStr "10.0") (PStr "10.0") (PStr "10.0") []
                     [("status", PStr "SUCCESS"); ("rates", PList seven_rates)] seven_rates
                     (ex_intro _ _ (conj eq_refl (conj (conj (Zle_bool_imp_le 200 201 eq_refl) eq_refl) eq_refl)))
                     eq_refl
                     ltac:(sample_entries))
              ltac:(cbn; lia))
    as [lines [Hrun [_ Hfmt]]].
  assert (Hlines : lines = [ "USPS - $5.50 (1-3 days)"; "USPS - $7.25 (2 days)";
                             "UPS - $9.10 (3 days)"; "UPS - $14.00 (next day)";
                             "FedEx - $11.75 (2 days)" ]).
  { apply (formatted_lines_unique str_sample _ _ _ Hfmt). cbn [firstn seven_rates].
    sample_lines. }
  rewrite Hlines in Hrun. exact Hrun.
Defined.

(** A failed lookup gets the error message; an empty tracking object
    raises [KeyError('tracking_status')]. *)
Lemma track_failure_is_message_missing_field_raises_witness :
  fst (track_shipment str_sample (Some "shippo_sample") backend_500 "9400100000000000" "usps" [])
  = Returns tracking_error_message
  /\ fst (track_shipment str_sample (Some "shippo_sample") backend_tracking_empty
            "9400100000000000" "usps" [])
     = Raises (KeyError (PStr "tracking_status")).
Proof.
  split.
  - apply (proj1 (track_failure_is_message_missing_field_raises str_sample
                    (Some "shippo_sample") backend_500 eq_refl _ _ _)).
    apply failed_status. cbn. lia.
  - apply (proj2 (track_failure_is_message_missing_field_raises str_sample
                    (Some "shippo_sample") backend_tracking_empty eq_refl _ _ _) (PDict [])).
    + exists (mkResponse 200 (Some (PDict []))). cbn. repeat split; lia.
    + reflexivity.
Defined.

(** C6 as worded fails on a 200 response whose body is the empty object:
    the field [tracking_status] is missing and the call raises instead of
    returning the error message. *)
Lemma track_failure_claim_fails_on_empty_object :
  ~ track_failure_claim str_sample (Some "shippo_sample") backend_tracking_empty
      "9400100000000000" "usps" [].
Proof.
  unfold track_failure_claim. intros H.
  assert (Hmiss : exists tracking_info field,
             succeeded (backend_tracking_empty
                          (track_request (Some "shippo_sample") "9400100000000000" "usps"))
                       tracking_info
             /\ missing_field tracking_info = Some field).
  { exists (PDict []), "tracking_status". split; [|reflexivity].
    exists (mkResponse 200 (Some (PDict []))). cbn. repeat split; lia. }
  specialize (H eq_refl (or_intror Hmiss)). vm_compute in H. discriminate H.
Qed.

(** No shipping credential, unset or empty: the "unavailable" message and
    an empty trace. *)
Lemma track_without_credential_is_unavailable_witness :
  (track_shipment str_sample None backend_tracking_without_eta "9400100000000000" "usps" []
   = (Returns tracking_unavailable_message, [])
   /\ sent (snd (track_shipment str_sample None backend_tracking_without_eta
                   "9400100000000000" "usps" [])) = sent [])
  /\ (track_shipment str_sample (Some "") backend_tracking_without_eta "9400100000000000" "fedex" []
      = (Returns tracking_unavailable_message, [])
      /\ sent (snd (track_shipment str_sample (Some "") backend_tracking_without_eta
                      "9400100000000000" "fedex" [])) = sent []).
Proof.
  split.
  - apply (track_without_credential_is_unavailable str_sample None). reflexivity.
  - apply (track_without_credential_is_unavailable str_sample (Some "")). reflexivity.
Defined.

(** No shipping credential and an unreachable backend: the request still
    goes out, with [None] in its header, and the error message returned is
    the one a failure with a credential gets. *)
Lemma rates_call_has_no_credential_gate_witness :
  sent (snd (get_shipping_rates str_sample None backend_down
               (sample_address "Ann" "Oakland") (sample_address "Bob" "Fresno")
               (PStr "1.0") (PStr "10.0") (PStr "10.0") (PStr "10.0") []))
  = [rates_request str_sample None
       (sample_address "Ann" "Oakland") (sample_address "Bob" "Fresno")
       (PStr "1.0") (PStr "10.0") (PStr "10.0") (PStr "10.0")]
  /\ req_headers (rates_request str_sample None
                    (sample_address "Ann" "Oakland") (sample_address "Bob" "Fresno")
                    (PStr "1.0") (PStr "10.0") (PStr "10.0") (PStr "10.0"))
     = [("Authorization", "ShippoToken None")]
  /\ fst (get_shipping_rates str_sample None backend_down
            (sample_address "Ann" "Oakland") (sample_address "Bob" "Fresno")
            (PStr "1.0") (PStr "10.0") (PStr "10.0") (PStr "10.0") [])
     = Returns rates_error_message
  /\ fst (get_shipping_rates str_sample (Some "shippo_sample") backend_500
            (sample_address "Ann" "Oakland") (sample_address "Bob" "Fresno")
            (PStr "1.0") (PStr "10.0") (PStr "10.0") (PStr "10.0") [])
     = Returns rates_error_message.
Proof.
  pose proof (rates_call_has_no_credential_gate str_sample None backend_down
                (sample_address "Ann" "Oakland") (sample_address "Bob" "Fresno")
                (PStr "1.0") (PStr "10.0") (PStr "10.0") (PStr "10.0") [])
    as [Hsent [Hheader Hfail]].
  pose proof (rates_call_has_no_credential_gate str_sample (Some "shippo_sample") backend_500
                (sample_address "Ann" "Oakland") (sample_address "Bob" "Fresno")
                (PStr "1.0") (PStr "10.0") (PStr "10.0") (PStr "10.0") [])
    as [_ [_ Hfail']].
  split; [exact Hsent|]. split; [exact (Hheader eq_refl)|]. split.
  - apply Hfail. apply failed_transport.
  - apply Hfail'. apply failed_status. cbn. lia.
Defined.

(** A tracking response without [eta]. *)
Lemma track_without_eta_reads_not_available_witness :
  fst (track_shipment str_sample (Some "shippo_sample") backend_tracking_without_eta
         "9400100000000000" "usps" [])
  = Returns (("Tracking Status: " ++ "TRANSIT") ++ Str.nl
             ++ ("Current Location: " ++ "Memphis" ++ ", " ++ "US") ++ Str.nl
             ++ "Estimated Delivery: Not available")
  /\ Str.lines (("Tracking Status: " ++ "TRANSIT") ++ Str.nl
                ++ ("Current Location: " ++ "Memphis" ++ ", " ++ "US") ++ Str.nl
                ++ "Estimated Delivery: Not available")
     = [ "Tracking Status: TRANSIT"; "Current Location: Memphis, US";
         "Estimated Delivery: Not available" ].
Proof.
  pose proof (track_without_eta_reads_not_available str_sample (Some "shippo_sample")
                backend_tracking_without_eta eq_refl "9400100000000000" "usps" []
                [("carrier", PStr "usps");
                 ("tracking_status",
                  PDict [("status", PStr "TRANSIT");
                         ("location", PDict [("city", PStr "Memphis"); ("country", PStr "US")])])]
                [("status", PStr "TRANSIT");
                 ("location", PDict [("city", PStr "Memphis"); ("country", PStr "US")])]
                [("city", PStr "Memphis"); ("country", PStr "US")]
                (PStr "TRANSIT") (PStr "Memphis") (PStr "US")
                (ex_intro _ _ (conj eq_refl (conj (conj (Zle_bool_imp_le 200 200 eq_refl) eq_refl) eq_refl)))
                eq_refl eq_refl eq_refl eq_refl eq_refl eq_refl)
    as [Htext Hlines].
  split; [exact Htext|]. exact (Hlines eq_refl eq_refl eq_refl).
Defined.

(** A 201 response with no ["rates"] key. *)
Lemma rates_missing_key_is_no_rates_witness :
  fst (get_shipping_rates str_sample (Some "shippo_sample") backend_no_rates_key
         (sample_address "Ann" "Oakland") (sample_address "Bob" "Fresno")
         (PStr "1.0") (PStr "10.0") (PStr "10.0") (PStr "10.0") [])
  = Returns no_rates_message.
Proof.
  apply (rates_missing_key_is_no_rates str_sample (Some "shippo_sample") backend_no_rates_key
           _ _ _ _ _ _ [] [("status", PStr "QUEUED")]).
  - exists (mkResponse 201 (Some (PDict [("status", PStr "QUEUED")]))). cbn. repeat split; lia.
  - reflexivity.
Defined.

(** ** Runs *)

Example fallback_track_shipment_upper_case :
  get_fallback_response Str.ascii_lower "Please TRACK SHIPMENT 9400100000000000"
  = "To track a shipment, you'll need the tracking number and carrier information. Please use our Shipment Tracker tool in the Tools section for real-time tracking updates.".
Proof. reflexivity. Qed.

Example fallback_table_order_decides :
  get_fallback_response Str.ascii_lower "international shipping rates"
  = "Shipping rates vary depending on factors such as package weight, dimensions, destination, and service level. For accurate rates, please use our Shipping Rates Calculator tool in the Tools section.".
Proof. reflexivity. Qed.

Example seven_rates_give_five_lines :
  fst (get_shipping_rates str_sample (Some "shippo_sample") backend_seven_rates
         (sample_address "Ann" "Oakland") (sample_address "Bob" "Fresno")
         (PStr "1.0") (PStr "10.0") (PStr "10.0") (PStr "10.0") [])
  = Returns (String.concat Str.nl
               [ "Available shipping rates:";
                 "USPS - $5.50 (1-3 days)";
                 "USPS - $7.25 (2 days)";
                 "UPS - $9.10 (3 days)";
                 "UPS - $14.00 (next day)";
                 "FedEx - $11.75 (2 days)" ]).
Proof. reflexivity. Qed.

Example chat_success_returns_the_completion :
  get_enhanced_chatbot_response Str.ascii_lower (Some "gsk_sample")
    (fun _ => Responds (mkResponse 200 (Some completion_body)))
    "Which is cheaper?" sample_recent []
  = (Returns (PStr "LTL is usually cheaper."),
     [Sent (chat_request (Some "gsk_sample") "Which is cheaper?" sample_recent)]).
Proof. reflexivity. Qed.

Example chat_body_without_choices_raises :
  fst (get_enhanced_chatbot_response Str.ascii_lower (Some "gsk_sample")
         (fun _ => Responds (mkResponse 200 (Some (PDict [("error", PStr "overloaded")]))))
         "Which is cheaper?" [] [])
  = Raises (KeyError (PStr "choices")).
Proof. reflexivity. Qed.

Example short_history_is_sent_whole :
  request_messages (chat_request (Some "gsk_sample") "And FTL?" sample_earlier)
  = Some [ message "system" system_prompt;
           message "user" "Hello";
           message "assistant" "Good morning! How can I assist you?";
           message "user" "And FTL?" ].
Proof. reflexivity. Qed.

(** ** The further properties at sample inputs *)

Ltac sample_success :=
  eexists; split; [reflexivity | split; [cbn; lia | reflexivity]].

Lemma chat_success_returns_content_unmodified_witness :
  get_enhanced_chatbot_response Str.ascii_lower (Some "gsk_sample") backend_completion
    "Which is cheaper?" sample_recent []
  = (Returns (PStr "LTL is usually cheaper."),
     ([] ++ [Sent (chat_request (Some "gsk_sample") "Which is cheaper?" sample_recent)])%list).
Proof.
  eapply (chat_success_returns_content_unmodified Str.ascii_lower (Some "gsk_sample")
            backend_completion eq_refl).
  - sample_success.
  - reflexivity.
  - reflexivity.
  - reflexivity.
Defined.

Lemma chat_malformed_body_raises_witness :
  get_enhanced_chatbot_response Str.ascii_lower (Some "gsk_sample") backend_no_choices
    "Which is cheaper?" [] []
  = (Raises (KeyError (PStr "choices")),
     ([] ++ [Sent (chat_request (Some "gsk_sample") "Which is cheaper?" [])])%list).
Proof.
  eapply (proj1 (chat_malformed_body_raises Str.ascii_lower (Some "gsk_sample")
                   backend_no_choices eq_refl _ _ _ _ ltac:(sample_success))).
  reflexivity.
Defined.

Lemma chat_payload_size_is_bounded_witness :
  exists req msgs,
    sent (snd (get_enhanced_chatbot_response Str.ascii_lower (Some "gsk_sample")
                 backend_completion "And FTL?" sample_earlier []))
    = (sent [] ++ [req])%list
    /\ request_messages req = Some msgs
    /\ List.length msgs = 4%nat
    /\ msgs = [ PDict [("role", PStr "system");
                       ("content", PStr "You are an expert AI assistant specializing in logistics, shipping, trucking, and freight forwarding. Provide accurate, helpful, and concise information to user queries. Always maintain a friendly and professional tone.")];
                PDict [("role", PStr "user"); ("content", PStr "Hello")];
                PDict [("role", PStr "assistant");
                       ("content", PStr "Good morning! How can I assist you?")];
                PDict [("role", PStr "user"); ("content", PStr "And FTL?")] ].
Proof.
  destruct (chat_payload_size_is_bounded Str.ascii_lower (Some "gsk_sample")
              backend_completion eq_refl "And FTL?" sample_earlier [])
    as [req [msgs [Hsent [Hreq [Hlen [_ Hwhole]]]]]].
  exists req, msgs. split; [exact Hsent|]. split; [exact Hreq|]. split; [exact Hlen|].
  apply Hwhole. cbn. lia.
Defined.

Lemma track_sends_one_get_request_witness :
  sent (snd (track_shipment str_sample (Some "shippo_sample") backend_down
               "9400100000000000" "usps" []))
  = [mkRequest GET "https://api.goshippo.com/tracks/usps/9400100000000000/"
       [("Authorization", "ShippoToken shippo_sample")] None].
Proof.
  apply (track_sends_one_get_request str_sample (Some "shippo_sample") backend_down eq_refl
           "9400100000000000" "usps" []).
Defined.

Lemma rates_falsy_value_is_no_rates_witness :
  fst (get_shipping_rates str_sample (Some "shippo_sample") backend_rates_null
         (sample_address "Ann" "Oakland") (sample_address "Bob" "Fresno")
         (PStr "1.0") (PStr "10.0") (PStr "10.0") (PStr "10.0") [])
  = Returns no_rates_message.
Proof.
  eapply (rates_falsy_value_is_no_rates str_sample (Some "shippo_sample") backend_rates_null).
  - sample_success.
  - reflexivity.
  - reflexivity.
Defined.

Lemma rates_incomplete_entry_raises_witness :
  fst (get_shipping_rates str_sample (Some "shippo_sample") backend_incomplete_rate
         (sample_address "Ann" "Oakland") (sample_address "Bob" "Fresno")
         (PStr "1.0") (PStr "10.0") (PStr "10.0") (PStr "10.0") [])
  = Raises (KeyError (PStr "duration_terms")).
Proof.
  apply (rates_incomplete_entry_raises str_sample (Some "shippo_sample")
           backend_incomplete_rate
           (sample_address "Ann" "Oakland") (sample_address "Bob" "Fresno")
           (PStr "1.0") (PStr "10.0") (PStr "10.0") (PStr "10.0") []
           _ [sample_rate "USPS" "5.50" "1-3 days"] incomplete_rate
           [sample_rate "FedEx" "11.75" "2 days"] "duration_terms"
           ltac:(sample_success) eq_refl
           ltac:(cbn; lia) ltac:(sample_entries) eq_refl).
Defined.

Lemma track_with_eta_shows_its_value_witness :
  fst (track_shipment str_sample (Some "shippo_sample") backend_tracking_with_eta
         "9400100000000000" "usps" [])
  = Returns ("Tracking Status: " ++ "TRANSIT" ++ Str.nl
             ++ "Current Location: " ++ "Memphis" ++ ", " ++ "US" ++ Str.nl
             ++ "Estimated Delivery: " ++ "2024-03-12T18:00:00Z").
Proof.
  eapply (proj1 (track_with_eta_shows_its_value str_sample (Some "shippo_sample")
                   backend_tracking_with_eta eq_refl "9400100000000000" "usps" []
                   _ _ _ (PStr "TRANSIT") (PStr "Memphis") (PStr "US")
                   (PStr "2024-03-12T18:00:00Z")
                   ltac:(sample_success) eq_refl eq_refl eq_refl eq_refl eq_refl eq_refl)).
Defined.

Lemma track_null_object_raises_type_error_witness :
  fst (track_shipment str_sample (Some "shippo_sample") backend_tracking_unknown
         "9400100000000000" "usps" [])
  = Raises TypeError.
Proof.
  eapply (proj1 (track_null_object_raises_type_error str_sample (Some "shippo_sample")
                   backend_tracking_unknown eq_refl "9400100000000000" "usps" []
                   _ PNone ltac:(sample_success) ltac:(discriminate))).
  reflexivity.
Defined.

Lemma every_topic_phrase_gets_its_response_witness :
  get_fallback_response Str.ascii_lower "international shipping"
  = "International shipping involves additional considerations such as customs documentation, duties and taxes, restricted items, and longer transit times.".
Proof.
  apply (every_topic_phrase_gets_its_response Str.ascii_lower).
  - repeat constructor.
  - cbn. tauto.
Defined.

Lemma surrounding_text_keeps_a_topic_answer_witness :
  get_fallback_response Str.ascii_lower ("Hi! " ++ "Is PACKAGING included" ++ "? Thanks.")
  <> generic_prompt.
Proof.
  apply (surrounding_text_keeps_a_topic_answer Str.ascii_lower
           "Hi! " "Is PACKAGING included" "? Thanks.").
  - exists "hi! ", "? thanks.". reflexivity.
  - discriminate.
Defined.

Lemma information_tools_fall_back_to_their_topic_witness :
  (exists r, fst (trucking_info Str.ascii_lower None backend_down "Tire Chains" [])
             = Returns (PStr r)
             /\ In r (map snd (firstn 3 logistics_topics)))
  /\ (exists r, fst (freight_info Str.ascii_lower (Some "gsk_sample") backend_500
                       "Bills of Lading" [])
                = Returns (PStr r)
                /\ In r (map snd (firstn 4 logistics_topics))).
Proof.
  pose proof (information_tools_fall_back_to_their_topic Str.ascii_lower None backend_down
                "Tire Chains" []) as [Htruck _].
  pose proof (information_tools_fall_back_to_their_topic Str.ascii_lower (Some "gsk_sample")
                backend_500 "Bills of Lading" []) as [_ Hfreight].
  split.
  - apply Htruck.
    + exists "provide information about tire chains". reflexivity.
    + now left.
  - apply Hfreight.
    + exists "provide information about bills of lading". reflexivity.
    + right. apply failed_status. cbn. lia.
Defined.

Lemma timestamp_identifies_the_second_witness :
  String.length (format_timestamp sample_noon) = 19%nat
  /\ format_timestamp sample_noon = "2024-03-09 12:00:05"
  /\ format_timestamp sample_noon <> format_timestamp sample_evening.
Proof.
  assert (V1 : valid_datetime sample_noon) by (unfold valid_datetime; cbn; lia).
  assert (V2 : valid_datetime sample_evening) by (unfold valid_datetime; cbn; lia).
  destruct (timestamp_identifies_the_second sample_noon sample_evening V1 V2) as [Hlen Hiff].
  split; [exact Hlen|]. split; [reflexivity|].
  intros H. apply Hiff in H. cbn in H. lia.
Defined.

Lemma chatbot_reply_is_decorated_witness :
  fst (get_chatbot_response Str.ascii_lower str_sample None backend_down sample_noon
         "customs?" [] [])
  = Returns (robot ++ " " ++ get_fallback_response Str.ascii_lower "customs?"
             ++ " (sent at " ++ "2024-03-09 12:00:05" ++ ")")
  /\ fst (get_chatbot_response Str.ascii_lower str_sample (Some "gsk_sample")
            backend_completion sample_noon "Which is cheaper?" sample_recent [])
     = Returns (robot ++ " " ++ "LTL is usually cheaper."
                ++ " (sent at " ++ "2024-03-09 12:00:05" ++ ")").
Proof.
  split.
  - apply (proj1 (chatbot_reply_is_decorated Str.ascii_lower str_sample None backend_down
                    sample_noon "customs?" [] [])).
    now left.
  - eapply (proj2 (chatbot_reply_is_decorated Str.ascii_lower str_sample (Some "gsk_sample")
                     backend_completion sample_noon "Which is cheaper?" sample_recent [])).
    + reflexivity.
    + sample_success.
    + reflexivity.
    + reflexivity.
    + reflexivity.
Defined.

Lemma send_forwards_the_user_message_twice_witness :
  exists req msgs,
    sent (snd (send_click Str.ascii_lower str_sample (Some "gsk_sample") backend_completion
                 sample_noon "Which is cheaper?" sample_earlier []))
    = (sent [] ++ [req])%list
    /\ request_messages req = Some msgs
    /\ msgs = [ PDict [("role", PStr "system");
                       ("content", PStr "You are an expert AI assistant specializing in logistics, shipping, trucking, and freight forwarding. Provide accurate, helpful, and concise information to user queries. Always maintain a friendly and professional tone.")];
                PDict [("role", PStr "user"); ("content", PStr "Hello")];
                PDict [("role", PStr "assistant");
                       ("content", PStr "Good morning! How can I assist you?")];
                PDict [("role", PStr "user"); ("content", PStr "Which is cheaper?")];
                PDict [("role", PStr "user"); ("content", PStr "Which is cheaper?")] ].
Proof.
  destruct (send_forwards_the_user_message_twice Str.ascii_lower str_sample
              (Some "gsk_sample") backend_completion eq_refl
              sample_noon "Which is cheaper?" sample_earlier [] ltac:(discriminate))
    as [req [msgs [Hsent [Hreq [_ Hshort]]]]].
  exists req, msgs. split; [exact Hsent|]. split; [exact Hreq|].
  apply Hshort. cbn. lia.
Defined.

Lemma send_updates_the_history_witness :
  fst (send_click Str.ascii_lower str_sample None backend_down sample_noon
         "insurance" sample_earlier [])
  = (Returns tt,
     (sample_earlier
      ++ [mkChat "user" "insurance";
          mkChat "assistant"
            (robot ++ " " ++ get_fallback_response Str.ascii_lower "insurance"
             ++ " (sent at " ++ format_timestamp sample_noon ++ ")")%string])%list)
  /\ fst (send_click Str.ascii_lower str_sample (Some "gsk_sample") backend_no_choices
            sample_noon "insurance" sample_earlier [])
     = (Raises (KeyError (PStr "choices")),
        (sample_earlier ++ [mkChat "user" "insurance"])%list).
Proof.
  split.
  - apply (proj1 (proj2 (send_updates_the_history Str.ascii_lower str_sample None
                           backend_down sample_noon "insurance" sample_earlier []))).
    + discriminate.
    + now left.
  - eapply (proj2 (proj2 (send_updates_the_history Str.ascii_lower str_sample
                            (Some "gsk_sample") backend_no_choices sample_noon
                            "insurance" sample_earlier []))).
    + discriminate.
    + reflexivity.
    + sample_success.
    + reflexivity.
Defined.

Lemma completed_clicks_keep_the_dialogue_witness :
  alternating
    (snd (fst (run_clicks Str.ascii_lower str_sample (Some "gsk_sample")
                 [Send sample_noon "Which is cheaper?" backend_completion;
                  Clear;
                  Send sample_evening "customs" backend_500;
                  Send sample_evening "" backend_down]
                 [] []))) = true
  /\ Nat.even
       (List.length
          (snd (fst (run_clicks Str.ascii_lower str_sample (Some "gsk_sample")
                       [Send sample_noon "Which is cheaper?" backend_completion;
                        Clear;
                        Send sample_evening "customs" backend_500;
                        Send sample_evening "" backend_down]
                       [] [])))) = true.
Proof.
  eapply (completed_clicks_keep_the_dialogue Str.ascii_lower str_sample (Some "gsk_sample")
            [Send sample_noon "Which is cheaper?" backend_completion;
             Clear;
             Send sample_evening "customs" backend_500;
             Send sample_evening "" backend_down]
            [] []).
  - reflexivity.
  - reflexivity.
Defined.

Lemma rates_beyond_the_fifth_are_ignored_witness :
  fst (get_shipping_rates str_sample (Some "shippo_sample") backend_seven_rates
         (sample_address "Ann" "Oakland") (sample_address "Bob" "Fresno")
         (PStr "1.0") (PStr "10.0") (PStr "10.0") (PStr "10.0") [])
  = fst (get_shipping_rates str_sample (Some "shippo_sample") backend_five_rates
           (sample_address "Ann" "Oakland") (sample_address "Bob" "Fresno")
           (PStr "1.0") (PStr "10.0") (PStr "10.0") (PStr "10.0") []).
Proof.
  eapply (rates_beyond_the_fifth_are_ignored str_sample (Some "shippo_sample")
            backend_seven_rates backend_five_rates _ _ _ _ _ _ []
            _ _ (firstn 5 seven_rates) (skipn 5 seven_rates) []).
  - sample_success.
  - sample_success.
  - reflexivity.
  - reflexivity.
  - reflexivity.
Defined.
